(** * Jira integration plugin: the tool dispatcher of [server.py]

    A shallow embedding of [official/jira-integration/server.py]: the tool
    catalog returned by [list_tools], the lazily created client of
    [get_jira_client], and the dispatcher [call_tool] with its two
    exception handlers.

    Modelling conventions.
    - Python values that cross the dispatch boundary untyped
      ([Dict[str, Any]]) are [value]s, a JSON-like type; dictionaries whose
      insertion order is visible in the rendered output are association
      lists, the dictionaries that are only looked up ([arguments], the
      field maps handed to the client) are [gmap string value].
    - Strings are Rocq strings: the UTF-8 bytes of the Python string.
      [str.lower] depends on the Unicode tables of the interpreter, which
      are no part of this repository: it is a parameter of the model (the
      class [Lower]), known only to agree with [ascii_lower] on ASCII
      text.  Every general statement holds for every such function; the
      examples run with [ascii_lower] on ASCII data.  Floating point
      numbers are left out of [value].
    - The Jira client is an external collaborator: its behaviour is a
      record [Remote] of response functions, each answering either with a
      result or with a raised exception.  Every call made to it is appended
      to the [calls] log of the [World], together with the exception it
      raised, if any.
    - An issue fetched by its key has all the attributes the tools read
      ([Issue]); an issue of a search result has those the tracker sent
      back for the [fields] of the caller, so each may be missing
      ([Found]).
    - [json.dumps(obj, indent=2)] is not expanded: a text is either a plain
      string or a prefix followed by the dump of a [value]. *)

From Stdlib Require Import ZArith String Ascii List Bool Lia.
From stdpp Require Import base option list strings gmap pretty.

Set Warnings "-register-all".
Local Open Scope string_scope.
Local Open Scope Z_scope.

(** ** Python values *)

Inductive value : Type :=
| VNone
| VBool (b : bool)
| VInt (z : Z)
| VStr (s : string)
| VList (l : list value)
| VDict (d : list (string * value)).

(** Truth value of an object, as tested by [if x:] and [not x]. *)
Definition truthy (v : value) : bool :=
  match v with
  | VNone => false
  | VBool b => b
  | VInt z => negb (z =? 0)
  | VStr s => negb (String.eqb s EmptyString)
  | VList l => match l with [] => false | _ => true end
  | VDict d => match d with [] => false | _ => true end
  end.

(** [type(v).__name__], as it appears in the messages of the interpreter. *)
Definition type_name (v : value) : string :=
  match v with
  | VNone => "NoneType"
  | VBool _ => "bool"
  | VInt _ => "int"
  | VStr _ => "str"
  | VList _ => "list"
  | VDict _ => "dict"
  end.

(** [str.lower] on ASCII text: the letters A-Z are lowered. *)
Definition ascii_lower_char (c : ascii) : ascii :=
  let n := nat_of_ascii c in
  if (Nat.leb 65 n && Nat.leb n 90)%bool then ascii_of_nat (n + 32) else c.

Fixpoint ascii_lower (s : string) : string :=
  match s with
  | EmptyString => EmptyString
  | String c r => String (ascii_lower_char c) (ascii_lower r)
  end.

Definition ascii_only (s : string) : bool :=
  forallb (fun c => Nat.ltb (nat_of_ascii c) 128) (list_ascii_of_string s).

(** [str.lower] of the interpreter, on the UTF-8 bytes of a string.  What
    it does to the letters outside ASCII is in the Unicode tables of the
    interpreter; the model takes the function as it is and uses only that
    it lowers ASCII text as [ascii_lower] does. *)
Class Lower := {
  lower : string → string;
  lower_on_ascii : ∀ s, ascii_only s = true → lower s = ascii_lower s
}.

(** The instance the examples run with: their data is ASCII. *)
#[global] Instance ascii_Lower : Lower :=
  {| lower := ascii_lower; lower_on_ascii := fun _ _ => eq_refl |}.

(** [needle in hay] for two strings: substring test. *)
Fixpoint str_contains (needle hay : string) : bool :=
  String.prefix needle hay ||
  match hay with
  | EmptyString => false
  | String _ r => str_contains needle r
  end.

(** The characters of a string, as an iteration over it yields them: a
    byte that is no continuation byte, with the continuation bytes that
    follow it, is one character. *)
Definition continuation (c : ascii) : bool :=
  let n := nat_of_ascii c in (Nat.leb 128 n && Nat.ltb n 192)%bool.

Fixpoint utf8_split (l : list ascii) : string * list string :=
  match l with
  | [] => (EmptyString, [])
  | c :: r =>
      let (pending, cs) := utf8_split r in
      if continuation c then (String c pending, cs)
      else (EmptyString, String c pending :: cs)
  end.

Definition chars (s : string) : list string :=
  let (pending, cs) := utf8_split (list_ascii_of_string s) in
  match pending with
  | EmptyString => cs
  | _ => pending :: cs
  end.

Definition nl : string := String (ascii_of_nat 10) EmptyString.

(** ** Exceptions

    What the [try] statement of the dispatcher can catch.  A [JIRAError]
    carries the [status_code] and [text] attributes (both may be [None]);
    every other subclass of [Exception] is an [error], carrying what
    [str(e)] needs. *)

Inductive error : Type :=
| KeyError (key : string)
| ValueError (msg : string)
| AttributeError (msg : string)
| TypeError (msg : string)
| OtherError (msg : string).           (* any other class, with its message *)

Inductive exn : Type :=
| JIRAError (status_code : option Z) (text : option string)
| Exception (e : error).

Coercion Exception : error >-> exn.

(** How an f-string renders an optional attribute. *)
Definition fmt_opt {A} (f : A → string) (o : option A) : string :=
  match o with Some a => f a | None => "None" end.

(** ** Data handed back by the client *)

Record Issue := {
  key : string;
  fields_summary : string;
  fields_description : option string;
  fields_status_name : string;
  fields_issuetype_name : string;
  fields_assignee : option string;     (* displayName of the assignee *)
  fields_reporter : option string;
  fields_priority : option string;
  fields_labels : list string;
  fields_created : string;             (* str(issue.fields.created) *)
  fields_updated : string
}.

(** An attribute of an object of the client library: not there, [None],
    or there with a value. *)
Inductive attr (A : Type) : Type :=
| Missing
| Null
| Is (a : A).

Arguments Missing {A}.
Arguments Null {A}.
Arguments Is {A} a.

(** An issue of a search result.  The search passes the caller's [fields]
    on to the tracker, which then answers with those fields only, so each
    attribute of [issue.fields] may be missing; [fields_class] is the name
    of the class of [issue.fields], as the interpreter prints it when an
    attribute is missing. *)
Record Found := {
  found_key : string;
  fields_class : string;
  found_summary : attr string;
  found_status : attr string;          (* issue.fields.status.name *)
  found_issuetype : attr string;       (* issue.fields.issuetype.name *)
  found_assignee : attr string;        (* issue.fields.assignee.displayName *)
  found_reporter : attr string;
  found_priority : attr string;
  found_created : attr string;         (* str of the value *)
  found_updated : attr string
}.

Record Comment := {
  author_displayName : string;
  body : string;
  comment_created : string
}.

(** A transition [t]: [t["id"]], [t["name"]], [t["to"]["name"]]. *)
Record Transition := {
  t_id : string;
  t_name : string;
  t_to_name : string
}.

Record Project := {
  project_key : string;
  project_name : string;
  project_lead : option string;        (* None: no attribute [lead] *)
  project_archived : option bool       (* None: no attribute [archived] *)
}.

(** The client object; [client_info()] answers with the server it talks to. *)
Record JIRA := { client_info : string }.

(** ** The external client *)

Inductive Request : Type :=
| NewJIRA (server email token : string)
| SearchIssues (jql maxResults fields : value)
| GetIssue (issue_key : value) (expand : option string)
| GetComments (issue : Issue)
| CreateIssue (fields : gmap string value)
| UpdateIssue (issue : Issue) (fields : gmap string value)
| AddComment (issue_key comment : value)
| GetTransitions (issue_key : value)
| TransitionIssue (issue_key : value) (transition_id : string) (comment : value)
| GetProjects.

(** The calls that change the tracker. *)
Definition mutating (r : Request) : bool :=
  match r with
  | CreateIssue _ | UpdateIssue _ _ | AddComment _ _ | TransitionIssue _ _ _ => true
  | _ => false
  end.

Record Call := { request : Request; raised : option exn }.

Record Remote := {
  new_JIRA : string → string → string → exn + JIRA;
  search_issues : value → value → value → exn + list Found;
  issue : value → option string → exn + Issue;
  comments : Issue → exn + list Comment;
  create_issue : gmap string value → exn + Issue;
  update : Issue → gmap string value → exn + unit;
  add_comment : value → value → exn + unit;
  transitions : value → exn + list Transition;
  transition_issue : value → string → value → exn + unit;
  projects : exn + list Project
}.

(** ** Process state and the dispatcher monad *)

Record World := {
  _jira_client : option JIRA;          (* the module-level global *)
  environ : gmap string string;        (* os.environ *)
  calls : list Call                    (* log of the client calls *)
}.

Definition M (A : Type) : Type := World → (exn + A) * World.

Definition ret {A} (a : A) : M A := fun w => (inr a, w).
Definition raise {A} (e : exn) : M A := fun w => (inl e, w).
Definition bind {A B} (m : M A) (k : A → M B) : M B :=
  fun w => match m w with
           | (inr a, w') => k a w'
           | (inl e, w') => (inl e, w')
           end.

Notation "x <- m ;; k" := (bind m (fun x => k))
  (at level 100, m at next level, right associativity).

(** A call to the client: log it, then answer or raise. *)
Definition call {A} (rq : Request) (r : exn + A) : M A :=
  fun w =>
    (r, {| _jira_client := _jira_client w;
           environ := environ w;
           calls := calls w ++ [{| request := rq;
                                   raised := match r with inl e => Some e | inr _ => None end |}] |}).

Definition set_jira_client (j : JIRA) : M unit :=
  fun w => (inr tt, {| _jira_client := Some j; environ := environ w; calls := calls w |}).

Definition getenv (k : string) : M (option string) :=
  fun w => (inr (environ w !! k), w).

Definition read_jira_client : M (option JIRA) :=
  fun w => (inr (_jira_client w), w).

(** [arguments[k]] *)
Definition subscript (arguments : gmap string value) (k : string) : M value :=
  match arguments !! k with
  | Some v => ret v
  | None => raise (KeyError k)
  end.

(** [arguments.get(k, d)] *)
Definition get (arguments : gmap string value) (k : string) (d : value) : value :=
  default d (arguments !! k).

Definition lift {A} (r : exn + A) : M A := fun w => (r, w).

(** ** Formatting

    [str(v)] and [repr(v)], as used by f-strings.  [repr] of a string
    follows the interpreter: single quotes unless the string has a single
    quote and no double quote; the quote, the backslash and the control
    characters are escaped.  The bytes of a character outside ASCII are
    kept, as the interpreter does for a printable character. *)

Definition dquote : ascii := ascii_of_nat 34.
Definition squote : ascii := ascii_of_nat 39.
Definition backslash : ascii := ascii_of_nat 92.

Definition hex_digit (n : nat) : ascii :=
  ascii_of_nat (if Nat.ltb n 10 then 48 + n else 87 + n).

Definition repr_char (quote c : ascii) : string :=
  let n := nat_of_ascii c in
  if Ascii.eqb c quote || Ascii.eqb c backslash then String backslash (String c EmptyString)
  else if Nat.eqb n 9 then String backslash "t"
  else if Nat.eqb n 10 then String backslash "n"
  else if Nat.eqb n 13 then String backslash "r"
  else if Nat.ltb n 32 || Nat.eqb n 127 then
    String backslash (String "x" (String (hex_digit (Nat.div n 16))
                                    (String (hex_digit (Nat.modulo n 16)) EmptyString)))
  else String c EmptyString.

Definition has_char (c : ascii) (s : string) : bool :=
  existsb (Ascii.eqb c) (list_ascii_of_string s).

Definition repr_str (s : string) : string :=
  let quote := if has_char squote s && negb (has_char dquote s) then dquote else squote in
  String quote (String.concat EmptyString (repr_char quote <$> list_ascii_of_string s)
                ++ String quote EmptyString).

(** [str(e)].  The [str] of a [KeyError] is the [repr] of its key. *)
Definition str_error (e : error) : string :=
  match e with
  | KeyError k => repr_str k
  | ValueError m | AttributeError m | TypeError m | OtherError m => m
  end.

Fixpoint repr (v : value) : string :=
  match v with
  | VNone => "None"
  | VBool b => if b then "True" else "False"
  | VInt z => pretty z
  | VStr s => repr_str s
  | VList l => "[" ++ String.concat ", " (map repr l) ++ "]"
  | VDict d =>
      "{" ++ String.concat ", " (map (fun kv => repr_str (fst kv) ++ ": " ++ repr (snd kv)) d) ++ "}"
  end.

Definition str (v : value) : string :=
  match v with
  | VStr s => s
  | _ => repr v
  end.

(** [sep.join(v)]: [v] must be an iterable of strings. *)
Fixpoint join_items (i : nat) (l : list value) : exn + list string :=
  match l with
  | [] => inr []
  | VStr s :: r =>
      match join_items (S i) r with
      | inr ss => inr (s :: ss)
      | inl e => inl e
      end
  | v :: _ =>
      inl (Exception
             (TypeError ("sequence item " ++ pretty i ++ ": expected str instance, "
                         ++ type_name v ++ " found")))
  end.

Definition join (sep : string) (v : value) : exn + string :=
  match v with
  | VList l =>
      match join_items 0 l with
      | inr ss => inr (String.concat sep ss)
      | inl e => inl e
      end
  | VStr s => inr (String.concat sep (chars s))
  | VDict d => inr (String.concat sep (map fst d))
  | _ => inl (Exception (TypeError "can only join an iterable"))
  end.

(** [x in v] for a string [x]. *)
Definition contains (x : string) (v : value) : exn + bool :=
  match v with
  | VList l =>
      inr (existsb (fun e => match e with VStr s => String.eqb x s | _ => false end) l)
  | VStr s => inr (str_contains x s)
  | VDict d => inr (existsb (String.eqb x) (map fst d))
  | _ =>
      inl (Exception
             (TypeError ("argument of type '" ++ type_name v ++ "' is not iterable")))
  end.

(** ** What the dispatcher returns *)

Inductive Text : Type :=
| Plain (s : string)
| Dumps (prefix : string) (obj : value).   (* prefix + json.dumps(obj, indent=2) *)

Record TextContent := { type : string; text : Text }.

(** ** The tool catalog ([list_tools]) *)

Record ParameterSpec := {
  p_type : string;
  p_items : option string;             (* "items": {"type": ...} *)
  p_description : string;
  p_default : option value
}.

Record InputSchema := {
  schema_type : string;
  properties : list (string * ParameterSpec);
  required : option (list string)      (* None: the key is not there *)
}.

Record Tool := {
  name : string;
  description : string;
  inputSchema : InputSchema
}.

Definition param (t d : string) : ParameterSpec :=
  {| p_type := t; p_items := None; p_description := d; p_default := None |}.
Definition param_default (t d : string) (v : value) : ParameterSpec :=
  {| p_type := t; p_items := None; p_description := d; p_default := Some v |}.
Definition param_array (d : string) : ParameterSpec :=
  {| p_type := "array"; p_items := Some "string"; p_description := d; p_default := None |}.

Definition list_tools : list Tool :=
  [ {| name := "jira_search_issues";
       description := "Search Jira issues using JQL (Jira Query Language)";
       inputSchema := {|
         schema_type := "object";
         properties :=
           [ ("jql", param "string" "JQL query string (e.g., 'project = MYPROJ AND status = Open')");
             ("max_results", param_default "integer" "Maximum number of results to return" (VInt 50));
             ("fields", param_array "Specific fields to return (optional)") ];
         required := Some ["jql"] |} |};
    {| name := "jira_get_issue";
       description := "Get detailed information about a specific Jira issue";
       inputSchema := {|
         schema_type := "object";
         properties :=
           [ ("issue_key", param "string" "Issue key (e.g., 'PROJ-123')");
             ("expand", param_array "Additional data to expand (e.g., ['changelog', 'comments'])") ];
         required := Some ["issue_key"] |} |};
    {| name := "jira_create_issue";
       description := "Create a new Jira issue";
       inputSchema := {|
         schema_type := "object";
         properties :=
           [ ("project", param "string" "Project key (e.g., 'PROJ')");
             ("summary", param "string" "Issue summary/title");
             ("description", param "string" "Issue description");
             ("issue_type", param_default "string" "Issue type (e.g., 'Bug', 'Story', 'Task')" (VStr "Task"));
             ("priority", param "string" "Priority (e.g., 'High', 'Medium', 'Low')");
             ("assignee", param "string" "Assignee username or email");
             ("labels", param_array "Issue labels") ];
         required := Some ["project"; "summary"; "issue_type"] |} |};
    {| name := "jira_update_issue";
       description := "Update an existing Jira issue";
       inputSchema := {|
         schema_type := "object";
         properties :=
           [ ("issue_key", param "string" "Issue key (e.g., 'PROJ-123')");
             ("summary", param "string" "New summary/title");
             ("description", param "string" "New description");
             ("priority", param "string" "New priority");
             ("assignee", param "string" "New assignee username or email");
             ("labels", param_array "New labels") ];
         required := Some ["issue_key"] |} |};
    {| name := "jira_add_comment";
       description := "Add a comment to a Jira issue";
       inputSchema := {|
         schema_type := "object";
         properties :=
           [ ("issue_key", param "string" "Issue key (e.g., 'PROJ-123')");
             ("comment", param "string" "Comment text (supports Jira markdown)") ];
         required := Some ["issue_key"; "comment"] |} |};
    {| name := "jira_transition_issue";
       description := "Change the status of a Jira issue (e.g., move to In Progress, Done)";
       inputSchema := {|
         schema_type := "object";
         properties :=
           [ ("issue_key", param "string" "Issue key (e.g., 'PROJ-123')");
             ("transition", param "string" "Transition name or ID (e.g., 'In Progress', 'Done', '21')");
             ("comment", param "string" "Optional comment when transitioning") ];
         required := Some ["issue_key"; "transition"] |} |};
    {| name := "jira_get_transitions";
       description := "Get available transitions (status changes) for a Jira issue";
       inputSchema := {|
         schema_type := "object";
         properties :=
           [ ("issue_key", param "string" "Issue key (e.g., 'PROJ-123')") ];
         required := Some ["issue_key"] |} |};
    {| name := "jira_list_projects";
       description := "List all accessible Jira projects";
       inputSchema := {|
         schema_type := "object";
         properties :=
           [ ("include_archived", param_default "boolean" "Include archived projects" (VBool false)) ];
         required := None |} |} ].

(** The parameters a tool marks as required. *)
Definition required_of (t : Tool) : list string :=
  default [] (required (inputSchema t)).

Definition is_required (t : Tool) (p : string) : bool :=
  existsb (String.eqb p) (required_of t).

(** ** The transition resolver (the [for] loop of the transition tool)

    Runs over the transitions in the order of the client and stops at the
    first [t] with [t["name"].lower() == transition.lower() or
    t["id"] == transition]; [None] when the loop ends without [break].
    [transition.lower()] needs a string. *)

Definition matches {L : Lower} (t : Transition) (token : string) : bool :=
  String.eqb (lower (t_name t)) (lower token) || String.eqb (t_id t) token.

Fixpoint find_transition {L : Lower} (transitions : list Transition) (transition : value)
  : exn + option (string * string) :=
  match transitions with
  | [] => inr None
  | t :: rest =>
      match transition with
      | VStr token =>
          if matches t token then inr (Some (t_id t, t_name t))
          else find_transition rest transition
      | _ =>
          inl (Exception
                 (AttributeError ("'" ++ type_name transition
                                  ++ "' object has no attribute 'lower'")))
      end
  end.

(** ** Payloads *)

Definition opt_str (o : option string) : value :=
  match o with Some s => VStr s | None => VNone end.

(** Reading attributes.  [o.a] raises [AttributeError] when [o] has no
    attribute [a]; [o.a.b] raises it also when [o.a] is [None]. *)
Definition no_attribute (class attribute : string) : exn :=
  Exception (AttributeError ("'" ++ class ++ "' object has no attribute '"
                             ++ attribute ++ "'")).

Definition getattr {A} (class attribute : string) (a : attr A) : exn + option A :=
  match a with
  | Missing => inl (no_attribute class attribute)
  | Null => inr None
  | Is x => inr (Some x)
  end.

Definition getattr2 {A} (class attribute inner : string) (a : attr A) : exn + A :=
  match a with
  | Missing => inl (no_attribute class attribute)
  | Null => inl (no_attribute "NoneType" inner)
  | Is x => inr x
  end.

Definition and_then {A B} (r : exn + A) (k : A → exn + B) : exn + B :=
  match r with
  | inr a => k a
  | inl e => inl e
  end.

(** The summary of one issue in a search result: the attributes are read
    in the order of the dictionary display. *)
Definition search_issue_data (i : Found) : exn + value :=
  let c := fields_class i in
  and_then (getattr c "summary" (found_summary i)) (fun summary =>
  and_then (getattr2 c "status" "name" (found_status i)) (fun status =>
  and_then (getattr2 c "issuetype" "name" (found_issuetype i)) (fun issue_type =>
  and_then (getattr c "assignee" (found_assignee i)) (fun assignee =>
  and_then (getattr c "reporter" (found_reporter i)) (fun reporter =>
  and_then (getattr c "priority" (found_priority i)) (fun priority =>
  and_then (getattr c "created" (found_created i)) (fun created =>
  and_then (getattr c "updated" (found_updated i)) (fun updated =>
  inr (VDict [ ("key", VStr (found_key i));
               ("summary", opt_str summary);
               ("status", VStr status);
               ("issue_type", VStr issue_type);
               ("assignee", VStr (default "Unassigned" assignee));
               ("reporter", opt_str reporter);
               ("priority", opt_str priority);
               ("created", VStr (default "None" created));
               ("updated", VStr (default "None" updated)) ]))))))))).

(** The loop over the issues found: the first failure ends it. *)
Fixpoint search_results (issues : list Found) : exn + list value :=
  match issues with
  | [] => inr []
  | i :: rest =>
      and_then (search_issue_data i) (fun issue_data =>
      and_then (search_results rest) (fun results =>
      inr (issue_data :: results)))
  end.

(** The record of one issue, before the comments are added. *)
Definition issue_data (jira : JIRA) (i : Issue) : list (string * value) :=
  [ ("key", VStr (key i));
    ("summary", VStr (fields_summary i));
    ("description", opt_str (fields_description i));
    ("status", VStr (fields_status_name i));
    ("issue_type", VStr (fields_issuetype_name i));
    ("assignee", VStr (default "Unassigned" (fields_assignee i)));
    ("reporter", opt_str (fields_reporter i));
    ("priority", opt_str (fields_priority i));
    ("labels", VList (VStr <$> fields_labels i));
    ("created", VStr (fields_created i));
    ("updated", VStr (fields_updated i));
    ("url", VStr (client_info jira ++ "/browse/" ++ key i)) ].

Definition comment_data (c : Comment) : value :=
  VDict [ ("author", VStr (author_displayName c));
          ("body", VStr (body c));
          ("created", VStr (comment_created c)) ].

(** [issue_data["comments"] = ...]: a new key goes last. *)
Definition set_item (d : list (string * value)) (k : string) (v : value)
  : list (string * value) :=
  if existsb (String.eqb k) (map fst d)
  then map (fun kv => if String.eqb k (fst kv) then (k, v) else kv) d
  else d ++ [(k, v)].

Definition transition_data (t : Transition) : value :=
  VDict [ ("id", VStr (t_id t));
          ("name", VStr (t_name t));
          ("to_status", VStr (t_to_name t)) ].

Definition project_data (jira : JIRA) (p : Project) : value :=
  VDict [ ("key", VStr (project_key p));
          ("name", VStr (project_name p));
          ("lead", opt_str (project_lead p));
          ("url", VStr (client_info jira ++ "/browse/" ++ project_key p)) ].

(** The projects kept by the loop of the list-projects tool. *)
Definition keep_project (include_archived : value) (p : Project) : bool :=
  negb (negb (truthy include_archived)
        && match project_archived p with Some a => a | None => false end).

(** The field map of the create tool. *)
Definition opt_field (k : string) (v : value) (wrap : value → value)
    (m : gmap string value) : gmap string value :=
  if truthy v then <[k := wrap v]> m else m.

Definition named (v : value) : value := VDict [("name", v)].

Definition issue_dict (project summary : value) (arguments : gmap string value)
  : gmap string value :=
  let description := get arguments "description" (VStr EmptyString) in
  let issue_type := get arguments "issue_type" (VStr "Task") in
  let priority := get arguments "priority" VNone in
  let assignee := get arguments "assignee" VNone in
  let labels := get arguments "labels" (VList []) in
  opt_field "labels" labels (fun v => v)
    (opt_field "assignee" assignee named
       (opt_field "priority" priority named
          (<["issuetype" := named issue_type]>
             (<["description" := description]>
                (<["summary" := summary]>
                   (<["project" := VDict [("key", project)]]> ∅)))))).

(** The field map of the update tool. *)
Definition present_field (k : string) (wrap : value → value)
    (arguments m : gmap string value) : gmap string value :=
  match arguments !! k with
  | Some v => <[k := wrap v]> m
  | None => m
  end.

Definition update_fields (arguments : gmap string value) : gmap string value :=
  present_field "labels" (fun v => v) arguments
    (present_field "assignee" named arguments
       (present_field "priority" named arguments
          (present_field "description" (fun v => v) arguments
             (present_field "summary" (fun v => v) arguments ∅)))).

Definition text_content (t : Text) : list TextContent :=
  [ {| type := "text"; text := t |} ].

(** ** The dispatcher *)

Section Dispatch.

Context {L : Lower}.
Variable R : Remote.

Definition missing_configuration : string :=
  "Missing Jira configuration. Required environment variables: "
  ++ "JIRA_URL, JIRA_EMAIL, JIRA_API_TOKEN".

(** [all([jira_url, jira_email, jira_token])]: set and not empty. *)
Definition configured (o : option string) : option string :=
  match o with
  | Some s => if String.eqb s EmptyString then None else Some s
  | None => None
  end.

Definition get_jira_client : M JIRA :=
  c <- read_jira_client ;;
  match c with
  | Some jira => ret jira
  | None =>
      jira_url <- getenv "JIRA_URL" ;;
      jira_email <- getenv "JIRA_EMAIL" ;;
      jira_token <- getenv "JIRA_API_TOKEN" ;;
      match configured jira_url, configured jira_email, configured jira_token with
      | Some url, Some email, Some token =>
          jira <- call (NewJIRA url email token) (new_JIRA R url email token) ;;
          _ <- set_jira_client jira ;;
          ret jira
      | _, _, _ => raise (ValueError missing_configuration)
      end
  end.

Definition search_tool (jira : JIRA) (arguments : gmap string value) : M (list TextContent) :=
  jql <- subscript arguments "jql" ;;
  let max_results := get arguments "max_results" (VInt 50) in
  let fields := get arguments "fields" VNone in
  issues <- call (SearchIssues jql max_results fields)
                 (search_issues R jql max_results fields) ;;
  results <- lift (search_results issues) ;;
  ret (text_content
         (Dumps ("Found " ++ pretty (length results) ++ " issue(s):" ++ nl ++ nl)
                (VList results))).

Definition get_tool (jira : JIRA) (arguments : gmap string value) : M (list TextContent) :=
  issue_key <- subscript arguments "issue_key" ;;
  let expand := get arguments "expand" VNone in
  expand_arg <- (if truthy expand
                 then s <- lift (join "," expand) ;; ret (Some s)
                 else ret None) ;;
  issue <- call (GetIssue issue_key expand_arg) (issue R issue_key expand_arg) ;;
  let data := issue_data jira issue in
  wanted <- (if truthy expand then lift (contains "comments" expand) else ret false) ;;
  data <- (if wanted : bool
           then cs <- call (GetComments issue) (comments R issue) ;;
                ret (set_item data "comments" (VList (comment_data <$> cs)))
           else ret data) ;;
  ret (text_content (Dumps EmptyString (VDict data))).

Definition create_tool (jira : JIRA) (arguments : gmap string value) : M (list TextContent) :=
  project <- subscript arguments "project" ;;
  summary <- subscript arguments "summary" ;;
  let fields := issue_dict project summary arguments in
  new_issue <- call (CreateIssue fields) (create_issue R fields) ;;
  ret (text_content
         (Plain ("✅ Issue created successfully!" ++ nl ++ nl
                 ++ "Key: " ++ key new_issue ++ nl
                 ++ "URL: " ++ client_info jira ++ "/browse/" ++ key new_issue ++ nl
                 ++ "Summary: " ++ str summary))).

Definition update_tool (jira : JIRA) (arguments : gmap string value) : M (list TextContent) :=
  issue_key <- subscript arguments "issue_key" ;;
  issue <- call (GetIssue issue_key None) (issue R issue_key None) ;;
  let fields := update_fields arguments in
  _ <- call (UpdateIssue issue fields) (update R issue fields) ;;
  ret (text_content (Plain ("✅ Issue " ++ str issue_key ++ " updated successfully!"))).

Definition add_comment_tool (jira : JIRA) (arguments : gmap string value) : M (list TextContent) :=
  issue_key <- subscript arguments "issue_key" ;;
  comment <- subscript arguments "comment" ;;
  _ <- call (AddComment issue_key comment) (add_comment R issue_key comment) ;;
  ret (text_content (Plain ("✅ Comment added to " ++ str issue_key))).

Definition not_found_text (transition : value) (ts : list Transition) : string :=
  "❌ Transition '" ++ str transition ++ "' not found." ++ nl ++ nl
  ++ "Available transitions: " ++ String.concat ", " (t_name <$> ts).

Definition transition_tool (jira : JIRA) (arguments : gmap string value) : M (list TextContent) :=
  issue_key <- subscript arguments "issue_key" ;;
  transition <- subscript arguments "transition" ;;
  let comment := get arguments "comment" VNone in
  ts <- call (GetTransitions issue_key) (transitions R issue_key) ;;
  found <- lift (find_transition ts transition) ;;
  match found with
  | Some (transition_id, transition_name) =>
      if negb (String.eqb transition_id EmptyString)   (* if not transition_id *)
      then
        _ <- call (TransitionIssue issue_key transition_id comment)
                  (transition_issue R issue_key transition_id comment) ;;
        ret (text_content
               (Plain ("✅ Issue " ++ str issue_key ++ " transitioned to '"
                       ++ transition_name ++ "'")))
      else ret (text_content (Plain (not_found_text transition ts)))
  | None => ret (text_content (Plain (not_found_text transition ts)))
  end.

Definition get_transitions_tool (jira : JIRA) (arguments : gmap string value)
  : M (list TextContent) :=
  issue_key <- subscript arguments "issue_key" ;;
  ts <- call (GetTransitions issue_key) (transitions R issue_key) ;;
  ret (text_content
         (Dumps EmptyString
                (VDict [ ("issue", issue_key);
                         ("available_transitions", VList (transition_data <$> ts)) ]))).

Definition list_projects_tool (jira : JIRA) (arguments : gmap string value)
  : M (list TextContent) :=
  let include_archived := get arguments "include_archived" (VBool false) in
  ps <- call GetProjects (projects R) ;;
  let result := project_data jira <$> filter (fun p => keep_project include_archived p = true) ps in
  ret (text_content
         (Dumps ("Found " ++ pretty (length result) ++ " project(s):" ++ nl ++ nl)
                (VList result))).

Definition unknown_tool_text (name : string) : string := "❌ Unknown tool: " ++ name.

(** The body of the [try] statement. *)
Definition call_tool_body (name : string) (arguments : gmap string value)
  : M (list TextContent) :=
  jira <- get_jira_client ;;
  if String.eqb name "jira_search_issues" then search_tool jira arguments
  else if String.eqb name "jira_get_issue" then get_tool jira arguments
  else if String.eqb name "jira_create_issue" then create_tool jira arguments
  else if String.eqb name "jira_update_issue" then update_tool jira arguments
  else if String.eqb name "jira_add_comment" then add_comment_tool jira arguments
  else if String.eqb name "jira_transition_issue" then transition_tool jira arguments
  else if String.eqb name "jira_get_transitions" then get_transitions_tool jira arguments
  else if String.eqb name "jira_list_projects" then list_projects_tool jira arguments
  else ret (text_content (Plain (unknown_tool_text name))).

(** The two [except] clauses. *)
Definition jira_error_text (status_code : option Z) (text : option string) : string :=
  "❌ Jira Error: " ++ fmt_opt pretty status_code ++ " - " ++ fmt_opt (fun s => s) text.

Definition error_text (e : error) : string := "❌ Error: " ++ str_error e.

Definition handle (e : exn) : list TextContent :=
  match e with
  | JIRAError status_code text => text_content (Plain (jira_error_text status_code text))
  | Exception e => text_content (Plain (error_text e))
  end.

Definition call_tool (name : string) (arguments : gmap string value) (w : World)
  : list TextContent * World :=
  match call_tool_body name arguments w with
  | (inr out, w') => (out, w')
  | (inl e, w') => (handle e, w')
  end.

End Dispatch.

(** * Properties *)

(** ** A stub tracker for the examples *)

Definition PROJ_1 : Issue :=
  {| key := "PROJ-1"; fields_summary := "Fix bug"; fields_description := None;
     fields_status_name := "Open"; fields_issuetype_name := "Bug";
     fields_assignee := None; fields_reporter := Some "Ada";
     fields_priority := None; fields_labels := [];
     fields_created := "2024-01-01"; fields_updated := "2024-01-02" |}.

Definition FOUND_1 : Found :=
  {| found_key := "PROJ-1"; fields_class := "PropertyHolder";
     found_summary := Is "Fix bug"; found_status := Is "Open";
     found_issuetype := Is "Bug"; found_assignee := Null;
     found_reporter := Is "Ada"; found_priority := Null;
     found_created := Is "2024-01-01"; found_updated := Is "2024-01-02" |}.

Definition workflow : list Transition :=
  [ {| t_id := "21"; t_name := "In Progress"; t_to_name := "In Progress" |};
    {| t_id := "31"; t_name := "Done"; t_to_name := "Done" |} ].

(** A tracker that accepts everything and offers the transitions [ts]. *)
Definition tracker (ts : list Transition) : Remote :=
  {| new_JIRA := fun url _ _ => inr {| client_info := url |};
     search_issues := fun _ _ _ => inr [FOUND_1];
     issue := fun _ _ => inr PROJ_1;
     comments := fun _ => inr [ {| author_displayName := "Ada"; body := "seen";
                                   comment_created := "2024-01-03" |} ];
     create_issue := fun _ => inr PROJ_1;
     update := fun _ _ => inr tt;
     add_comment := fun _ _ => inr tt;
     transitions := fun _ => inr ts;
     transition_issue := fun _ _ _ => inr tt;
     projects := inr [] |}.

(** A tracker whose every operation is refused with the error [e]. *)
Definition refusing (e : exn) : Remote :=
  {| new_JIRA := fun url _ _ => inr {| client_info := url |};
     search_issues := fun _ _ _ => inl e;
     issue := fun _ _ => inl e;
     comments := fun _ => inl e;
     create_issue := fun _ => inl e;
     update := fun _ _ => inl e;
     add_comment := fun _ _ => inl e;
     transitions := fun _ => inl e;
     transition_issue := fun _ _ _ => inl e;
     projects := inl e |}.

(** A tracker that cannot be reached. *)
Definition unreachable (e : exn) : Remote :=
  {| new_JIRA := fun _ _ _ => inl e;
     search_issues := fun _ _ _ => inl e;
     issue := fun _ _ => inl e;
     comments := fun _ => inl e;
     create_issue := fun _ => inl e;
     update := fun _ _ => inl e;
     add_comment := fun _ _ => inl e;
     transitions := fun _ => inl e;
     transition_issue := fun _ _ _ => inl e;
     projects := inl e |}.

Definition archive : list Project :=
  [ {| project_key := "PROJ"; project_name := "Project"; project_lead := Some "Ada";
       project_archived := Some false |};
    {| project_key := "OLD"; project_name := "Old project"; project_lead := None;
       project_archived := Some true |};
    {| project_key := "LAB"; project_name := "Lab"; project_lead := Some "Bob";
       project_archived := None |} ].

(** A tracker with the projects [ps]. *)
Definition project_tracker (ps : list Project) : Remote :=
  {| new_JIRA := fun url _ _ => inr {| client_info := url |};
     search_issues := fun _ _ _ => inr [];
     issue := fun _ _ => inr PROJ_1;
     comments := fun _ => inr [];
     create_issue := fun _ => inr PROJ_1;
     update := fun _ _ => inr tt;
     add_comment := fun _ _ => inr tt;
     transitions := fun _ => inr [];
     transition_issue := fun _ _ _ => inr tt;
     projects := inr ps |}.

Definition the_client : JIRA := {| client_info := "https://jira.example" |}.

(** The client has been created by an earlier call. *)
Definition connected : World :=
  {| _jira_client := Some the_client; environ := ∅; calls := [] |}.

(** First call of a process without configuration. *)
Definition unconfigured : World :=
  {| _jira_client := None; environ := ∅; calls := [] |}.

(** First call of a configured process. *)
Definition configured_env : World :=
  {| _jira_client := None;
     environ := <["JIRA_URL" := "https://jira.example"]>
                  (<["JIRA_EMAIL" := "ada@example.org"]>
                     (<["JIRA_API_TOKEN" := "s3cret"]> ∅));
     calls := [] |}.

(** ** Vocabulary of the statements *)

(** [token] names [t]: same name up to case, or same id. *)
Definition names {L : Lower} (token : string) (t : Transition) : Prop :=
  lower (t_name t) = lower token ∨ t_id t = token.

(** The loop of the resolver, as a relation: [first_match ts token r] when
    [r] is the id and name of the earliest transition named by [token], or
    [None] when no transition is. *)
Inductive first_match {L : Lower} (token : string)
  : list Transition → option (string * string) → Prop :=
| fm_nil : first_match token [] None
| fm_here t rest :
    names token t → first_match token (t :: rest) (Some (t_id t, t_name t))
| fm_later t rest r :
    ¬ names token t → first_match token rest r → first_match token (t :: rest) r.

(** A logged call that returned. *)
Definition quiet (c : Call) : Prop := raised c = None.

(** [logged m Q]: running [m] only appends to the log of calls; when [m]
    returns, its result satisfies [Q] and no logged call has raised; when
    [m] raises [e], the only exception a logged call can have raised is
    [e]. *)
Definition logged {A} (m : M A) (Q : A → Prop) : Prop :=
  ∀ w, ∃ new,
    calls (m w).2 = (calls w ++ new)%list ∧
    match (m w).1 with
    | inr a => Q a ∧ Forall quiet new
    | inl e => Forall (fun c => raised c = None ∨ raised c = Some e) new
    end.

(** The shape of every answer: a list with one text in it. *)
Definition one_text (out : list TextContent) : Prop := ∃ t, out = text_content t.

(** The world after the calls [cs] have been logged. *)
Definition after_calls (w : World) (cs : list Call) : World :=
  {| _jira_client := _jira_client w; environ := environ w; calls := calls w ++ cs |}.

(** Arguments and data of the examples. *)
Definition transition_arguments (token : string) : gmap string value :=
  <["issue_key" := VStr "PROJ-1"]> (<["transition" := VStr token]> ∅).

Definition done_without_id : Transition :=
  {| t_id := EmptyString; t_name := "Done"; t_to_name := "Done" |}.

(** The keys an update can change. *)
Definition optional_update_keys : list string :=
  ["summary"; "description"; "priority"; "assignee"; "labels"].

Definition update_arguments_clear_labels : gmap string value :=
  <["issue_key" := VStr "X-1"]> (<["labels" := VList []]> ∅).

Definition update_arguments_key_only : gmap string value :=
  <["issue_key" := VStr "X-1"]> ∅.

Definition fix_bug_arguments : gmap string value :=
  <["project" := VStr "PROJ"]>
    (<["summary" := VStr "Fix bug"]> (<["issue_type" := VStr "Bug"]> ∅)).

Definition fix_bug_fields : gmap string value :=
  <["issuetype" := VDict [("name", VStr "Bug")]]>
    (<["description" := VStr EmptyString]>
       (<["summary" := VStr "Fix bug"]>
          (<["project" := VDict [("key", VStr "PROJ")]]> ∅))).

(** The [expand] argument of the client: the names joined by commas, or
    [None] when there are none. *)
Definition expand_argument (names : list string) : option string :=
  match names with
  | [] => None
  | _ => Some (String.concat "," names)
  end.

Definition get_arguments : gmap string value :=
  <["issue_key" := VStr "PROJ-1"]>
    (<["expand" := VList [VStr "changelog"; VStr "comments"]]> ∅).




(** *** Vocabulary of the further properties *)

(** The chain of comparisons of [call_tool], after the handle is there. *)
Definition handler {L : Lower} (R : Remote) (jira : JIRA) (tool : string)
    (arguments : gmap string value) : M (list TextContent) :=
  if String.eqb tool "jira_search_issues" then search_tool R jira arguments
  else if String.eqb tool "jira_get_issue" then get_tool R jira arguments
  else if String.eqb tool "jira_create_issue" then create_tool R jira arguments
  else if String.eqb tool "jira_update_issue" then update_tool R jira arguments
  else if String.eqb tool "jira_add_comment" then add_comment_tool R jira arguments
  else if String.eqb tool "jira_transition_issue" then transition_tool R jira arguments
  else if String.eqb tool "jira_get_transitions" then get_transitions_tool R jira arguments
  else if String.eqb tool "jira_list_projects" then list_projects_tool R jira arguments
  else ret (text_content (Plain (unknown_tool_text tool))).

(** The names of the tools that change the tracker. *)
Definition mutating_tools : list string :=
  ["jira_create_issue"; "jira_update_issue"; "jira_add_comment"; "jira_transition_issue"].

Definition is_creation (rq : Request) : bool :=
  match rq with NewJIRA _ _ _ => true | _ => false end.

(** [extends P w w']: [w'] is [w] with the same environment, the same
    handle if [w] had one, and more calls logged, all with a request in
    [P]. *)
Definition extends (P : Request → Prop) (w w' : World) : Prop :=
  environ w' = environ w ∧
  (∀ j, _jira_client w = Some j → _jira_client w' = Some j) ∧
  ∃ new, calls w' = (calls w ++ new)%list ∧ Forall (fun c => P (request c)) new.

Definition keeps (P : Request → Prop) {A} (m : M A) : Prop :=
  ∀ w, extends P w (m w).2.

Definition reads (rq : Request) : Prop := mutating rq = false.

Definition no_creation (rq : Request) : Prop := is_creation rq = false.

(** Calls that read, followed by at most one more call. *)
Definition writes_last (new : list Call) : Prop :=
  ∃ pre post,
    new = (pre ++ post)%list ∧ Forall (fun c => reads (request c)) pre ∧
    (length post ≤ 1)%nat.

Definition once {A} (m : M A) : Prop :=
  ∀ w, ∃ new, calls (m w).2 = (calls w ++ new)%list ∧ writes_last new.

(** A search result whose attributes are all there for the summary: none
    is missing, and status and issue type are not [None]. *)
Definition present {A} (a : attr A) : bool :=
  match a with Missing => false | _ => true end.

Definition has_value {A} (a : attr A) : bool :=
  match a with Is _ => true | _ => false end.

Definition complete (i : Found) : bool :=
  present (found_summary i) && has_value (found_status i)
  && has_value (found_issuetype i) && present (found_assignee i)
  && present (found_reporter i) && present (found_priority i)
  && present (found_created i) && present (found_updated i).

(** What the summary of a search says about the issue it is made from. *)
Definition summarises (i : Found) (v : value) : Prop :=
  ∃ d, v = VDict d ∧
       d !! 0%nat = Some ("key", VStr (found_key i)) ∧
       ("assignee", VStr (match found_assignee i with
                          | Is a => a
                          | _ => "Unassigned"
                          end)) ∈ d.

(** The calls logged by an invocation. *)
Definition new_calls (w w' : World) : list Call := drop (length (calls w)) (calls w').

(** ** The resolver: first match *)

Lemma matches_names {L : Lower} t token : matches t token = true ↔ names token t.
Proof.
  unfold matches, names. rewrite orb_true_iff, !String.eqb_eq. tauto.
Qed.

Lemma matches_not_names {L : Lower} t token : matches t token = false ↔ ¬ names token t.
Proof.
  rewrite <- matches_names. destruct (matches t token); split; congruence.
Qed.

Lemma find_transition_first_match {L : Lower} ts token :
  ∃ r, find_transition ts (VStr token) = inr r ∧ first_match token ts r.
Proof.
  induction ts as [|t rest IH]; simpl.
  - exists None. split; [reflexivity | constructor].
  - destruct (matches t token) eqn:Hm.
    + exists (Some (t_id t, t_name t)). split; [reflexivity|].
      apply fm_here. by apply matches_names.
    + destruct IH as (r & Hr & Hfm). exists r. split; [exact Hr|].
      apply fm_later; [by apply matches_not_names | exact Hfm].
Qed.

(** [first_match] says what it should: the result is the earliest named
    transition, everything before it is not named. *)
Lemma first_match_some {L : Lower} token ts i n :
  first_match token ts (Some (i, n)) →
  ∃ before t after,
    ts = (before ++ t :: after)%list ∧ Forall (fun u => ¬ names token u) before ∧
    names token t ∧ i = t_id t ∧ n = t_name t.
Proof.
  intros H. remember (Some (i, n)) as r eqn:Er.
  induction H as [|t rest Ht|t rest r Ht H IH].
  - discriminate.
  - injection Er as <- <-. exists [], t, rest. by repeat split.
  - destruct (IH Er) as (before & u & after & -> & Hb & Hu & -> & ->).
    exists (t :: before), u, after. repeat split; try done. by constructor.
Qed.

Lemma first_match_none {L : Lower} token ts :
  first_match token ts None → Forall (fun u => ¬ names token u) ts.
Proof.
  intros H. remember None as r eqn:Er.
  induction H as [|t rest Ht|t rest r Ht H IH]; [constructor|discriminate|].
  constructor; [exact Ht | by apply IH].
Qed.

(** C1.  For every list of transitions and every token the resolver
    finishes with the earliest transition, in the order of the client,
    whose name equals the token up to case or whose id equals the token,
    and with no transition when there is none.  For the transitions 21
    "In Progress" and 31 "Done": "in progress" gives 21, "31" gives 31,
    "progress" gives nothing. *)
Theorem resolver_first_match {L : Lower} :
  (∀ ts token,
      (∀ i n, find_transition ts (VStr token) = inr (Some (i, n)) ↔
              ∃ before t after,
                ts = (before ++ t :: after)%list ∧
                Forall (fun u => ¬ names token u) before ∧
                names token t ∧ i = t_id t ∧ n = t_name t) ∧
      (find_transition ts (VStr token) = inr None ↔
         Forall (fun u => ¬ names token u) ts) ∧
      (∀ e, find_transition ts (VStr token) ≠ inl e)) ∧
  find_transition workflow (VStr "in progress") = inr (Some ("21", "In Progress")) ∧
  find_transition workflow (VStr "31") = inr (Some ("31", "Done")) ∧
  find_transition workflow (VStr "progress") = inr None.
Proof.
  split;
    [|repeat split; unfold workflow; cbn [find_transition]; unfold matches;
      cbn [t_name t_id]; rewrite !lower_on_ascii by reflexivity; reflexivity].
  intros ts token.
  destruct (find_transition_first_match ts token) as (r & Hr & Hfm).
  rewrite Hr. split; [|split].
  - intros i n. split.
    + intros [= ->]. by apply first_match_some.
    + intros (before & t & after & -> & Hb & Ht & -> & ->). f_equal.
      clear Hr. induction before as [|b before IH]; simpl in *.
      * inversion Hfm; subst; [done | contradiction].
      * inversion Hb; subst. inversion Hfm; subst; [contradiction | by apply IH].
  - split.
    + intros [= ->]. by apply first_match_none.
    + intros Hall. f_equal. clear Hr.
      induction Hfm as [|t rest Ht|t rest r Ht H IH]; [done| |].
      * inversion Hall; subst. contradiction.
      * inversion Hall; subst. by apply IH.
  - intros e. discriminate.
Qed.

(** ** Reasoning about the monad: rules for [logged] *)

Section Logged.

Context {A B : Type}.

Lemma logged_ret (a : A) (Q : A → Prop) : Q a → logged (ret a) Q.
Proof.
  intros Ha w. exists []. simpl. rewrite app_nil_r. repeat split; [exact Ha | constructor].
Qed.

Lemma logged_raise (e : exn) (Q : A → Prop) : logged (raise e) Q.
Proof.
  intros w. exists []. simpl. rewrite app_nil_r. split; [reflexivity | constructor].
Qed.

Lemma logged_lift (r : exn + A) : logged (lift r) (fun _ => True).
Proof.
  intros w. exists []. simpl. rewrite app_nil_r. split; [reflexivity|].
  destruct r; repeat constructor.
Qed.

Lemma logged_call (rq : Request) (r : exn + A) : logged (call rq r) (fun _ => True).
Proof.
  intros w. eexists. simpl. split; [reflexivity|].
  destruct r as [e|a].
  - constructor; [right; reflexivity | constructor].
  - split; [exact I|]. constructor; [reflexivity | constructor].
Qed.

Lemma logged_bind (m : M A) (k : A → M B) (P : A → Prop) (Q : B → Prop) :
  logged m P → (∀ a, P a → logged (k a) Q) → logged (bind m k) Q.
Proof.
  intros Hm Hk w. unfold bind.
  destruct (Hm w) as (new1 & Hc1 & H1).
  destruct (m w) as [[e|a] w1]; simpl in *.
  - exists new1. split; [exact Hc1 | exact H1].
  - destruct H1 as [Pa Hq1].
    destruct (Hk a Pa w1) as (new2 & Hc2 & H2).
    exists (new1 ++ new2)%list. rewrite Hc2, Hc1, app_assoc. split; [reflexivity|].
    destruct ((k a w1).1) as [e|b].
    + apply Forall_app. split; [|exact H2].
      eapply Forall_impl; [exact Hq1|]. intros c Hc. left. exact Hc.
    + destruct H2 as [Qb Hq2]. split; [exact Qb|]. apply Forall_app. by split.
Qed.

Lemma logged_weaken (m : M A) (P Q : A → Prop) :
  logged m P → (∀ a, P a → Q a) → logged m Q.
Proof.
  intros Hm HPQ w. destruct (Hm w) as (new & Hc & H). exists new. split; [exact Hc|].
  destruct ((m w).1); [exact H|]. destruct H. split; auto.
Qed.

End Logged.

Lemma logged_subscript arguments k : logged (subscript arguments k) (fun _ => True).
Proof.
  unfold subscript. destruct (arguments !! k); [by apply logged_ret | apply logged_raise].
Qed.

Lemma logged_getenv k : logged (getenv k) (fun _ => True).
Proof. intros w. exists []. simpl. rewrite app_nil_r. repeat constructor. Qed.

Lemma logged_read_jira_client : logged read_jira_client (fun _ => True).
Proof. intros w. exists []. simpl. rewrite app_nil_r. repeat constructor. Qed.

Lemma logged_set_jira_client j : logged (set_jira_client j) (fun _ => True).
Proof. intros w. exists []. simpl. rewrite app_nil_r. repeat constructor. Qed.

(** One step of a proof of [logged]: follow the structure of the code. *)
Ltac logged_step :=
  lazymatch goal with
  | |- logged (bind _ _) _ => eapply logged_bind; [|intros ? _]
  | |- logged (ret (text_content _)) _ => apply logged_ret; eexists; reflexivity
  | |- logged (ret _) _ => exact (logged_ret _ (fun _ => True) I)
  | |- logged (raise _) _ => apply logged_raise
  | |- logged (lift _) _ => apply logged_lift
  | |- logged (call _ _) _ => apply logged_call
  | |- logged (subscript _ _) _ => apply logged_subscript
  | |- logged (getenv _) _ => apply logged_getenv
  | |- logged read_jira_client _ => apply logged_read_jira_client
  | |- logged (set_jira_client _) _ => apply logged_set_jira_client
  | |- logged (if ?b then _ else _) _ => destruct b
  | |- logged (match ?x with _ => _ end) _ => destruct x
  end.

Lemma logged_get_jira_client R : logged (get_jira_client R) (fun _ => True).
Proof. unfold get_jira_client. repeat logged_step. Qed.

Lemma logged_call_tool_body {L : Lower} R tool arguments :
  logged (call_tool_body R tool arguments) one_text.
Proof.
  unfold call_tool_body.
  eapply logged_bind; [apply logged_get_jira_client|]. intros jira _.
  unfold search_tool, get_tool, create_tool, update_tool, add_comment_tool,
    transition_tool, get_transitions_tool, list_projects_tool, one_text.
  repeat logged_step.
Qed.

(** ** Obtaining the client *)

(** The handle is either the one created earlier, or it is created now from
    the three environment variables; nothing else is called. *)
Lemma get_jira_client_returns R w jira w1 :
  get_jira_client R w = (inr jira, w1) →
  (_jira_client w = Some jira ∧ w1 = w) ∨
  (∃ url email token,
      _jira_client w = None ∧
      new_JIRA R url email token = inr jira ∧
      w1 = {| _jira_client := Some jira; environ := environ w;
              calls := calls w ++ [{| request := NewJIRA url email token;
                                      raised := None |}] |}).
Proof.
  unfold get_jira_client, bind, read_jira_client, getenv; simpl.
  destruct (_jira_client w) as [j|] eqn:Hc; simpl.
  - intros [= -> <-]. by left.
  - destruct (configured (environ w !! "JIRA_URL")) as [url|]; [|discriminate].
    destruct (configured (environ w !! "JIRA_EMAIL")) as [email|]; [|discriminate].
    destruct (configured (environ w !! "JIRA_API_TOKEN")) as [token|]; [|discriminate].
    unfold call, set_jira_client, ret; simpl.
    destruct (new_JIRA R url email token) as [e|j] eqn:Hn; [discriminate|].
    intros [= -> <-]. right. exists url, email, token. by rewrite Hn.
Qed.

Lemma get_jira_client_cached R w jira :
  _jira_client w = Some jira → get_jira_client R w = (inr jira, w).
Proof.
  intros H. unfold get_jira_client, bind, read_jira_client. simpl. by rewrite H.
Qed.


(** The dispatcher, once the handle is there. *)
Lemma call_tool_with_client {L : Lower} R tool arguments w jira w1 :
  get_jira_client R w = (inr jira, w1) →
  call_tool R tool arguments w =
    match
      (if String.eqb tool "jira_search_issues" then search_tool R jira arguments
       else if String.eqb tool "jira_get_issue" then get_tool R jira arguments
       else if String.eqb tool "jira_create_issue" then create_tool R jira arguments
       else if String.eqb tool "jira_update_issue" then update_tool R jira arguments
       else if String.eqb tool "jira_add_comment" then add_comment_tool R jira arguments
       else if String.eqb tool "jira_transition_issue" then transition_tool R jira arguments
       else if String.eqb tool "jira_get_transitions" then get_transitions_tool R jira arguments
       else if String.eqb tool "jira_list_projects" then list_projects_tool R jira arguments
       else ret (text_content (Plain (unknown_tool_text tool)))) w1
    with
    | (inr out, w') => (out, w')
    | (inl e, w') => (handle e, w')
    end.
Proof.
  intros H. unfold call_tool, call_tool_body, bind. by rewrite H.
Qed.

Lemma call_tool_without_client {L : Lower} R tool arguments w e w1 :
  get_jira_client R w = (inl e, w1) →
  call_tool R tool arguments w = (handle e, w1).
Proof.
  intros H. unfold call_tool, call_tool_body, bind. by rewrite H.
Qed.

(** ** Unknown tools *)

Lemma delete_issue_not_registered : "jira_delete_issue" ∉ (name <$> list_tools).
Proof.
  intros H. vm_compute in H.
  repeat (apply elem_of_cons in H as [H|H]; [discriminate|]).
  by apply elem_of_nil in H.
Qed.

(** C2, as stated, fails: the handle is obtained before the name is looked
    at.  In a process without configuration an unregistered name is answered
    with the configuration error, and in a configured process the client
    is created for it. *)
Lemma unknown_tool_needs_client :
  ("jira_delete_issue" ∉ (name <$> list_tools)) ∧
  call_tool (tracker workflow) "jira_delete_issue" ∅ unconfigured =
    (text_content
       (Plain ("❌ Error: Missing Jira configuration. Required environment variables: "
               ++ "JIRA_URL, JIRA_EMAIL, JIRA_API_TOKEN")),
     unconfigured) ∧
  calls (call_tool (tracker workflow) "jira_delete_issue" ∅ configured_env).2 =
    [ {| request := NewJIRA "https://jira.example" "ada@example.org" "s3cret";
         raised := None |} ].
Proof.
  split; [apply delete_issue_not_registered | split; by vm_compute].
Qed.

Lemma not_registered tool :
  tool ∉ (name <$> list_tools) →
  String.eqb tool "jira_search_issues" = false ∧
  String.eqb tool "jira_get_issue" = false ∧
  String.eqb tool "jira_create_issue" = false ∧
  String.eqb tool "jira_update_issue" = false ∧
  String.eqb tool "jira_add_comment" = false ∧
  String.eqb tool "jira_transition_issue" = false ∧
  String.eqb tool "jira_get_transitions" = false ∧
  String.eqb tool "jira_list_projects" = false.
Proof.
  intros H. repeat split; apply String.eqb_neq; intros ->; apply H; simpl;
    repeat first [apply list_elem_of_here | apply list_elem_of_further].
Qed.

(** C2, amended.  For every name outside the catalog of eight tools: once
    the handle of the client is there (created by an earlier call, or
    created now from the configuration), the answer is the unknown-tool
    failure carrying the name, and no operation of the client is invoked
    beyond that creation; when the handle cannot be obtained, the answer
    is the failure of obtaining it. *)
Theorem unknown_tool_after_client {L : Lower} R tool arguments w r w1
    (Hunknown : tool ∉ (name <$> list_tools))
    (Hclient : get_jira_client R w = (r, w1)) :
  match r with
  | inr jira =>
      call_tool R tool arguments w =
        ([ {| type := "text"; text := Plain ("❌ Unknown tool: " ++ tool) |} ], w1) ∧
      (calls w1 = calls w ∨
       ∃ url email token,
         calls w1 = (calls w ++ [{| request := NewJIRA url email token;
                                    raised := None |}])%list)
  | inl e => call_tool R tool arguments w = (handle e, w1)
  end.
Proof.
  destruct r as [e|jira]; [by apply call_tool_without_client|].
  split.
  - rewrite (call_tool_with_client _ _ _ _ _ _ Hclient).
    destruct (not_registered _ Hunknown) as (-> & -> & -> & -> & -> & -> & -> & ->).
    reflexivity.
  - apply get_jira_client_returns in Hclient as [[_ ->]|(u & m & t & _ & _ & ->)].
    + by left.
    + right. by exists u, m, t.
Qed.

Lemma unknown_tool_after_client_witness :
  call_tool (tracker workflow) "jira_delete_issue" ∅ connected =
    ([ {| type := "text"; text := Plain "❌ Unknown tool: jira_delete_issue" |} ],
     connected).
Proof.
  refine (proj1 (unknown_tool_after_client (tracker workflow) "jira_delete_issue" ∅
                   connected (inr the_client) connected _ _)).
  - apply delete_issue_not_registered.
  - reflexivity.
Defined.

(** ** The two handlers *)

Lemma error_shapes_differ status_code text e :
  Plain (jira_error_text status_code text) ≠ Plain (error_text e).
Proof. unfold jira_error_text, error_text. simpl. discriminate. Qed.

(** Every invocation returns one text, only appends to the log of calls,
    and an exception raised by a call of the client ends up in a handler. *)
Lemma call_tool_handles {L : Lower} R tool arguments w :
  ∃ t new,
    (call_tool R tool arguments w).1 = [ {| type := "text"; text := t |} ] ∧
    calls (call_tool R tool arguments w).2 = (calls w ++ new)%list ∧
    ∀ c e, c ∈ new → raised c = Some e →
           (call_tool R tool arguments w).1 = handle e.
Proof.
  destruct (logged_call_tool_body R tool arguments w) as (new & Hc & H).
  unfold call_tool.
  destruct (call_tool_body R tool arguments w) as [[e|out] w']; simpl in *.
  - assert (∃ t, handle e = [ {| type := "text"; text := t |} ]) as [t Ht]
        by (destruct e; eexists; reflexivity).
    exists t, new. repeat split; [exact Ht | exact Hc|].
    intros c e' Hin Hr. rewrite Forall_forall in H.
    destruct (H c Hin) as [Hn|Hs]; congruence.
  - destruct H as [[t ->] Hq]. exists t, new. repeat split; [exact Hc|].
    intros c e' Hin Hr. rewrite Forall_forall in Hq. specialize (Hq c Hin).
    unfold quiet in Hq. congruence.
Qed.

(** C4.  Every invocation returns exactly one text and nothing is raised
    past the dispatcher: whatever a call of the client raises is turned
    into the answer by one of the two handlers.  An error of the tracker
    with a status code and a text is answered with the failure
    "<status> - <detail>"; every other exception is answered with the
    catch-all failure, and the two failures are never the same text. *)
Theorem one_outcome_two_error_shapes {L : Lower} :
  (∀ R tool arguments w,
      ∃ t new,
        (call_tool R tool arguments w).1 = [ {| type := "text"; text := t |} ] ∧
        calls (call_tool R tool arguments w).2 = (calls w ++ new)%list ∧
        ∀ c, c ∈ new →
             match raised c with
             | Some (JIRAError status_code detail) =>
                 t = Plain ("❌ Jira Error: " ++ fmt_opt pretty status_code ++ " - "
                            ++ fmt_opt (fun s => s) detail)
             | Some (Exception e) => t = Plain ("❌ Error: " ++ str_error e)
             | None => True
             end) ∧
  (∀ (status : Z) (detail : string),
      fmt_opt pretty (Some status) ++ " - " ++ fmt_opt (fun s => s) (Some detail)
      = pretty status ++ " - " ++ detail) ∧
  (∀ (status_code : option Z) detail e,
      Plain ("❌ Jira Error: " ++ fmt_opt pretty status_code ++ " - "
             ++ fmt_opt (fun s => s) detail)
      ≠ Plain ("❌ Error: " ++ str_error e)) ∧
  (call_tool (refusing (JIRAError (Some 404) (Some "Issue Does Not Exist")))
             "jira_get_issue" {[ "issue_key" := VStr "PROJ-9" ]} connected).1
  = [ {| type := "text";
         text := Plain "❌ Jira Error: 404 - Issue Does Not Exist" |} ] ∧
  (call_tool (refusing (OtherError "connection reset"))
             "jira_get_issue" {[ "issue_key" := VStr "PROJ-9" ]} connected).1
  = [ {| type := "text"; text := Plain "❌ Error: connection reset" |} ].
Proof.
  split; [|split; [reflexivity | split; [|split; by vm_compute]]].
  - intros R tool arguments w.
    destruct (call_tool_handles R tool arguments w) as (t & new & Ht & Hc & Hr).
    exists t, new. repeat split; [exact Ht | exact Hc|].
    intros c Hin. destruct (raised c) as [e|] eqn:Hraised; [|exact I].
    specialize (Hr c e Hin Hraised). rewrite Ht in Hr.
    destruct e; simpl in Hr; injection Hr as ->; reflexivity.
  - intros status_code detail e. apply error_shapes_differ.
Qed.

(** ** The transition tool *)

Lemma find_transition_none {L : Lower} ts token :
  Forall (fun u => ¬ names token u) ts → find_transition ts (VStr token) = inr None.
Proof.
  induction 1 as [|t rest Ht _ IH]; simpl; [reflexivity|].
  apply matches_not_names in Ht. by rewrite Ht.
Qed.

Lemma find_transition_some {L : Lower} before t after token :
  Forall (fun u => ¬ names token u) before → names token t →
  find_transition (before ++ t :: after) (VStr token) = inr (Some (t_id t, t_name t)).
Proof.
  intros Hb Ht. induction Hb as [|u rest Hu _ IH]; simpl.
  - apply matches_names in Ht. by rewrite Ht.
  - apply matches_not_names in Hu. by rewrite Hu.
Qed.

(** The ids of the transitions of a tracker are not empty.  The test after
    the loop is on the truth value of the id, so a transition with the
    empty string as its id would be answered as not found. *)
Lemma empty_id_is_taken_as_no_match :
  names "done" done_without_id ∧
  call_tool (tracker [done_without_id]) "jira_transition_issue"
            (transition_arguments "done") connected =
    ([ {| type := "text";
          text := Plain ("❌ Transition 'done' not found." ++ nl ++ nl
                         ++ "Available transitions: Done") |} ],
     after_calls connected
       [ {| request := GetTransitions (VStr "PROJ-1"); raised := None |} ]).
Proof.
  split; [left; reflexivity | by vm_compute].
Qed.

(** C6.  In a transition call (the handle is there, the key and a string
    token are given, the transitions of the issue are fetched): when the
    token names none of the transitions, the answer is the not-found text
    listing the names of all of them, and fetching the transitions is the
    only call made, so no transition is applied.  When the token names a
    transition, the earliest such one (its id, as every id of a tracker,
    not being empty) is applied, and this is the only change asked of the
    tracker; the answer is the confirmation that carries the name of that
    transition when the tracker accepts it, and the failure made from the
    exception of the tracker otherwise. *)
Theorem transition_outcomes {L : Lower} R arguments w jira w1 issue_key token ts
    (Hclient : get_jira_client R w = (inr jira, w1))
    (Hkey : arguments !! "issue_key" = Some issue_key)
    (Htoken : arguments !! "transition" = Some (VStr token))
    (Hts : transitions R issue_key = inr ts) :
  (Forall (fun u => ¬ names token u) ts →
   call_tool R "jira_transition_issue" arguments w =
     ([ {| type := "text";
           text := Plain ("❌ Transition '" ++ token ++ "' not found." ++ nl ++ nl
                          ++ "Available transitions: "
                          ++ String.concat ", " (map t_name ts)) |} ],
      after_calls w1 [ {| request := GetTransitions issue_key; raised := None |} ])) ∧
  (∀ before t after,
      ts = (before ++ t :: after)%list →
      Forall (fun u => ¬ names token u) before →
      names token t →
      t_id t ≠ EmptyString →
      let comment := default VNone (arguments !! "comment") in
      call_tool R "jira_transition_issue" arguments w =
        (match transition_issue R issue_key (t_id t) comment with
         | inr _ =>
             [ {| type := "text";
                  text := Plain ("✅ Issue " ++ str issue_key ++ " transitioned to '"
                                 ++ t_name t ++ "'") |} ]
         | inl e => handle e
         end,
         after_calls w1
           [ {| request := GetTransitions issue_key; raised := None |};
             {| request := TransitionIssue issue_key (t_id t) comment;
                raised := match transition_issue R issue_key (t_id t) comment with
                          | inl e => Some e
                          | inr _ => None
                          end |} ])).
Proof.
  rewrite (call_tool_with_client _ _ _ _ _ _ Hclient).
  change (String.eqb "jira_transition_issue" "jira_search_issues") with false.
  change (String.eqb "jira_transition_issue" "jira_get_issue") with false.
  change (String.eqb "jira_transition_issue" "jira_create_issue") with false.
  change (String.eqb "jira_transition_issue" "jira_update_issue") with false.
  change (String.eqb "jira_transition_issue" "jira_add_comment") with false.
  change (String.eqb "jira_transition_issue" "jira_transition_issue") with true. cbv iota.
  unfold transition_tool, bind, subscript, call, lift. rewrite Hkey, Htoken. cbn [ret].
  rewrite Hts. split.
  - intros Hnone. rewrite (find_transition_none _ _ Hnone). reflexivity.
  - intros before t after -> Hb Ht Hid. cbv zeta.
    rewrite (find_transition_some _ _ _ _ Hb Ht).
    apply String.eqb_neq in Hid. rewrite Hid. cbn [negb].
    unfold get.
    destruct (transition_issue R issue_key (t_id t) (default VNone (arguments !! "comment")));
      unfold after_calls; cbn [ret calls _jira_client environ];
      by rewrite <- app_assoc.
Qed.

Lemma transition_outcomes_witness :
  call_tool (tracker workflow) "jira_transition_issue"
            (transition_arguments "in progress") connected =
    ([ {| type := "text";
          text := Plain "✅ Issue PROJ-1 transitioned to 'In Progress'" |} ],
     after_calls connected
       [ {| request := GetTransitions (VStr "PROJ-1"); raised := None |};
         {| request := TransitionIssue (VStr "PROJ-1") "21" VNone; raised := None |} ]).
Proof.
  refine (proj2 (transition_outcomes (tracker workflow)
                   (transition_arguments "in progress") connected the_client
                   connected (VStr "PROJ-1") "in progress" workflow _ _ _ _)
                [] {| t_id := "21"; t_name := "In Progress"; t_to_name := "In Progress" |}
                [ {| t_id := "31"; t_name := "Done"; t_to_name := "Done" |} ]
                _ _ _ _); try reflexivity.
  - constructor.
  - left. reflexivity.
  - discriminate.
Defined.

(** ** The update tool *)

Lemma lookup_present_field k wrap arguments m j :
  present_field k wrap arguments m !! j =
    if decide (k = j) then
      match arguments !! k with Some v => Some (wrap v) | None => m !! j end
    else m !! j.
Proof.
  unfold present_field. destruct (arguments !! k) as [v|].
  - rewrite lookup_insert. by case_decide.
  - by case_decide.
Qed.

(** What the field map of an update holds under each key. *)
Lemma lookup_update_fields arguments k :
  update_fields arguments !! k =
    if decide (k = "labels") then arguments !! "labels"
    else if decide (k = "assignee") then named <$> arguments !! "assignee"
    else if decide (k = "priority") then named <$> arguments !! "priority"
    else if decide (k = "description") then arguments !! "description"
    else if decide (k = "summary") then arguments !! "summary"
    else None.
Proof.
  unfold update_fields. rewrite !lookup_present_field, lookup_empty.
  repeat case_decide; subst; try congruence;
    repeat match goal with |- context [arguments !! ?j] => destruct (arguments !! j) end;
    reflexivity.
Qed.

(** C3.  The field map built by an update holds exactly the optional keys
    (summary, description, priority, assignee, labels) that are present in
    the raw arguments, with their values (priority and assignee wrapped in
    a name record), and an update call that reaches the tracker sends this
    map.  With issue_key "X-1" and labels [] the map holds labels [];
    without labels it holds no labels key. *)
Theorem update_sends_present_keys {L : Lower} :
  (∀ arguments k,
      is_Some (update_fields arguments !! k) ↔
      k ∈ optional_update_keys ∧ is_Some (arguments !! k)) ∧
  (∀ arguments k v,
      arguments !! k = Some v → k ∈ optional_update_keys →
      update_fields arguments !! k =
        Some (if decide (k = "priority" ∨ k = "assignee") then VDict [("name", v)] else v)) ∧
  (∀ R arguments w jira w1 issue_key i,
      get_jira_client R w = (inr jira, w1) →
      arguments !! "issue_key" = Some issue_key →
      issue R issue_key None = inr i →
      request <$> drop (length (calls w1))
                       (calls (call_tool R "jira_update_issue" arguments w).2)
      = [ GetIssue issue_key None; UpdateIssue i (update_fields arguments) ]) ∧
  update_fields update_arguments_clear_labels = {[ "labels" := VList [] ]} ∧
  update_fields update_arguments_key_only = ∅.
Proof.
  split; [|split; [|split; [|split]]].
  - intros arguments k. rewrite lookup_update_fields. unfold optional_update_keys.
    rewrite !elem_of_cons, elem_of_nil.
    repeat case_decide; subst; rewrite ?fmap_is_Some;
      try (split; [intros ?; split; [tauto | assumption] | intros [_ ?]; assumption]).
    split; [intros [? [=]]|]. intros [[|[|[|[|[|[]]]]]] _]; congruence.
  - intros arguments k v Hk Hin. rewrite lookup_update_fields.
    unfold optional_update_keys in Hin.
    rewrite !elem_of_cons, elem_of_nil in Hin.
    destruct Hin as [->|[->|[->|[->|[->|[]]]]]]; rewrite ?Hk; reflexivity.
  - intros R arguments w jira w1 issue_key i Hclient Hkey Hissue.
    rewrite (call_tool_with_client _ _ _ _ _ _ Hclient). simpl.
    unfold update_tool, bind, subscript, call. rewrite Hkey. simpl. rewrite Hissue. simpl.
    destruct (update R i (update_fields arguments)); simpl;
      rewrite <- app_assoc, drop_app_length; reflexivity.
  - apply map_eq. intros k. rewrite lookup_update_fields. unfold update_arguments_clear_labels.
    repeat case_decide; subst; by simplify_map_eq.
  - apply map_eq. intros k. rewrite lookup_update_fields. unfold update_arguments_key_only.
    repeat case_decide; subst; by simplify_map_eq.
Qed.

Lemma update_sends_present_keys_witness :
  request <$> drop (length (calls connected))
                   (calls (call_tool (tracker workflow) "jira_update_issue"
                                     update_arguments_clear_labels connected).2)
  = [ GetIssue (VStr "X-1") None;
      UpdateIssue PROJ_1 (update_fields update_arguments_clear_labels) ].
Proof.
  refine (proj1 (proj2 (proj2 update_sends_present_keys))
            (tracker workflow) update_arguments_clear_labels connected the_client
            connected (VStr "X-1") PROJ_1 _ _ _); reflexivity.
Defined.

(** ** The create tool *)

Lemma lookup_opt_field k v wrap m j :
  opt_field k v wrap m !! j =
    if decide (k = j) then (if truthy v then Some (wrap v) else m !! j) else m !! j.
Proof.
  unfold opt_field. destruct (truthy v).
  - rewrite lookup_insert. by case_decide.
  - by case_decide.
Qed.

(** What the field map of a create holds under each key. *)
Lemma lookup_issue_dict project summary arguments k :
  issue_dict project summary arguments !! k =
    if decide (k = "labels") then
      let labels := default (VList []) (arguments !! "labels") in
      if truthy labels then Some labels else None
    else if decide (k = "assignee") then
      let assignee := default VNone (arguments !! "assignee") in
      if truthy assignee then Some (VDict [("name", assignee)]) else None
    else if decide (k = "priority") then
      let priority := default VNone (arguments !! "priority") in
      if truthy priority then Some (VDict [("name", priority)]) else None
    else if decide (k = "issuetype") then
      Some (VDict [("name", default (VStr "Task") (arguments !! "issue_type"))])
    else if decide (k = "description") then
      Some (default (VStr EmptyString) (arguments !! "description"))
    else if decide (k = "summary") then Some summary
    else if decide (k = "project") then Some (VDict [("key", project)])
    else None.
Proof.
  unfold issue_dict, get. rewrite !lookup_opt_field, !lookup_insert, lookup_empty. simpl.
  repeat case_decide; subst; try congruence;
    repeat match goal with |- context [truthy ?v] => destruct (truthy v) end;
    reflexivity.
Qed.

(** The calls of a create that has its two keys. *)
Lemma create_tool_runs {L : Lower} R arguments w jira w1 project summary :
  get_jira_client R w = (inr jira, w1) →
  arguments !! "project" = Some project →
  arguments !! "summary" = Some summary →
  let fields := issue_dict project summary arguments in
  call_tool R "jira_create_issue" arguments w =
    (match create_issue R fields with
     | inr new_issue =>
         text_content
           (Plain ("✅ Issue created successfully!" ++ nl ++ nl
                   ++ "Key: " ++ key new_issue ++ nl
                   ++ "URL: " ++ client_info jira ++ "/browse/" ++ key new_issue ++ nl
                   ++ "Summary: " ++ str summary))
     | inl e => handle e
     end,
     after_calls w1
       [ {| request := CreateIssue fields;
            raised := match create_issue R fields with
                      | inl e => Some e | inr _ => None end |} ]).
Proof.
  intros Hclient Hp Hs fields.
  rewrite (call_tool_with_client _ _ _ _ _ _ Hclient). simpl.
  unfold create_tool, bind, subscript, call. rewrite Hp, Hs. simpl. fold fields.
  destruct (create_issue R fields); reflexivity.
Qed.

(** C10.  The field map of a create always has the description key, with
    the description of the caller or the empty string when there is none;
    priority, assignee and labels are left out when they are absent or
    empty, and are there otherwise.  A create call that has its project
    and summary submits exactly this map. *)
Theorem create_always_sends_description {L : Lower} :
  (∀ project summary arguments,
      issue_dict project summary arguments !! "description" =
        Some (match arguments !! "description" with
              | Some d => d
              | None => VStr EmptyString
              end)) ∧
  (∀ project summary arguments k,
      k ∈ ["priority"; "assignee"; "labels"] →
      arguments !! k = None ∨ arguments !! k = Some (VStr EmptyString)
      ∨ arguments !! k = Some (VList []) →
      issue_dict project summary arguments !! k = None) ∧
  (∀ project summary arguments k v,
      k ∈ ["priority"; "assignee"; "labels"] →
      arguments !! k = Some v → truthy v = true →
      is_Some (issue_dict project summary arguments !! k)) ∧
  (∀ R arguments w jira w1 project summary,
      get_jira_client R w = (inr jira, w1) →
      arguments !! "project" = Some project →
      arguments !! "summary" = Some summary →
      request <$> drop (length (calls w1))
                       (calls (call_tool R "jira_create_issue" arguments w).2)
      = [ CreateIssue (issue_dict project summary arguments) ]).
Proof.
  split; [|split; [|split]].
  - intros project summary arguments. rewrite lookup_issue_dict. simpl.
    by destruct (arguments !! "description").
  - intros project summary arguments k Hk Harg. rewrite lookup_issue_dict.
    rewrite !elem_of_cons, elem_of_nil in Hk.
    destruct Hk as [->|[->|[->|[]]]]; simpl;
      destruct Harg as [->|[->| ->]]; reflexivity.
  - intros project summary arguments k v Hk Harg Hv. rewrite lookup_issue_dict.
    rewrite !elem_of_cons, elem_of_nil in Hk.
    destruct Hk as [->|[->|[->|[]]]]; simpl; rewrite Harg; simpl; rewrite Hv; eauto.
  - intros R arguments w jira w1 project summary Hclient Hp Hs.
    rewrite (create_tool_runs _ _ _ _ _ _ _ Hclient Hp Hs). simpl.
    by rewrite drop_app_length.
Qed.

Lemma create_always_sends_description_witness :
  request <$> drop (length (calls connected))
                   (calls (call_tool (tracker workflow) "jira_create_issue"
                                     fix_bug_arguments connected).2)
  = [ CreateIssue (issue_dict (VStr "PROJ") (VStr "Fix bug") fix_bug_arguments) ].
Proof.
  refine (proj2 (proj2 (proj2 create_always_sends_description))
            (tracker workflow) fix_bug_arguments connected the_client connected
            (VStr "PROJ") (VStr "Fix bug") _ _ _); reflexivity.
Defined.

Lemma issue_dict_fix_bug :
  issue_dict (VStr "PROJ") (VStr "Fix bug") fix_bug_arguments = fix_bug_fields.
Proof.
  apply map_eq. intros k. rewrite lookup_issue_dict. unfold fix_bug_fields, fix_bug_arguments.
  repeat case_decide; subst; by simplify_map_eq.
Qed.

(** C7.  Creating an issue with project "PROJ", summary "Fix bug", type
    "Bug" and nothing else submits the field map with project, summary,
    the empty description and the issue type, hence without priority,
    assignee or labels; when the tracker creates the issue, the answer is
    the success text with the key of the new issue and the browse address
    built from that key. *)
Theorem create_fix_bug {L : Lower} R w jira w1 new_issue
    (Hclient : get_jira_client R w = (inr jira, w1))
    (Hcreated : create_issue R fix_bug_fields = inr new_issue) :
  call_tool R "jira_create_issue" fix_bug_arguments w =
    ([ {| type := "text";
          text := Plain ("✅ Issue created successfully!" ++ nl ++ nl
                         ++ "Key: " ++ key new_issue ++ nl
                         ++ "URL: " ++ client_info jira ++ "/browse/" ++ key new_issue ++ nl
                         ++ "Summary: Fix bug") |} ],
     after_calls w1 [ {| request := CreateIssue fix_bug_fields; raised := None |} ]) ∧
  fix_bug_fields !! "priority" = None ∧
  fix_bug_fields !! "assignee" = None ∧
  fix_bug_fields !! "labels" = None ∧
  dom fix_bug_fields = {[ "project"; "summary"; "description"; "issuetype" ]}.
Proof.
  split.
  - rewrite (create_tool_runs _ fix_bug_arguments _ _ _ (VStr "PROJ") (VStr "Fix bug") Hclient)
      by reflexivity.
    simpl. rewrite issue_dict_fix_bug, Hcreated. reflexivity.
  - repeat split; reflexivity.
Qed.

Lemma create_fix_bug_witness :
  (call_tool (tracker workflow) "jira_create_issue" fix_bug_arguments connected).1 =
    [ {| type := "text";
         text := Plain ("✅ Issue created successfully!" ++ nl ++ nl
                        ++ "Key: PROJ-1" ++ nl
                        ++ "URL: https://jira.example/browse/PROJ-1" ++ nl
                        ++ "Summary: Fix bug") |} ].
Proof.
  exact (f_equal fst
           (proj1 (create_fix_bug (tracker workflow) connected the_client connected PROJ_1
                     eq_refl eq_refl))).
Defined.

(** ** The get tool *)

Lemma join_items_strings i (l : list string) : join_items i (VStr <$> l) = inr l.
Proof.
  revert i. induction l as [|s l IH]; intros i; [reflexivity|].
  rewrite fmap_cons. cbn [join_items]. by rewrite IH.
Qed.

Lemma contains_strings x (l : list string) :
  contains x (VList (VStr <$> l)) = inr (bool_decide (x ∈ l)).
Proof.
  unfold contains. f_equal. induction l as [|s l IH]; [reflexivity|].
  rewrite fmap_cons. cbn [existsb]. rewrite IH.
  destruct (String.eqb_spec x s) as [->|Hne]; cbn [orb].
  - symmetry. apply bool_decide_eq_true. apply list_elem_of_here.
  - apply bool_decide_ext. rewrite elem_of_cons.
    split; [by right | intros [Heq|Hin]; [contradiction | exact Hin]].
Qed.

Lemma issue_data_keys jira i :
  (issue_data jira i).*1 =
    [ "key"; "summary"; "description"; "status"; "issue_type"; "assignee"; "reporter";
      "priority"; "labels"; "created"; "updated"; "url" ].
Proof. reflexivity. Qed.

Lemma comments_not_in_issue_data jira i : "comments" ∉ (issue_data jira i).*1.
Proof.
  rewrite issue_data_keys. intros H.
  repeat (apply elem_of_cons in H as [Heq|H]; [discriminate|]).
  by apply elem_of_nil in H.
Qed.

Lemma set_item_comments jira i v :
  set_item (issue_data jira i) "comments" v = (issue_data jira i ++ [("comments", v)])%list.
Proof. reflexivity. Qed.

Lemma join_strings sep (l : list string) :
  join sep (VList (VStr <$> l)) = inr (String.concat sep l).
Proof. unfold join. by rewrite join_items_strings. Qed.

Lemma truthy_strings (l : list string) :
  truthy (VList (VStr <$> l)) = match l with [] => false | _ => true end.
Proof. by destruct l. Qed.

(** The get tool for a list of names, step by step. *)
Lemma get_tool_runs R jira arguments w1 issue_key (names : list string) i :
  arguments !! "issue_key" = Some issue_key →
  default VNone (arguments !! "expand") = VNone
    ∧ names = [] ∨ arguments !! "expand" = Some (VList (VStr <$> names)) →
  issue R issue_key (expand_argument names) = inr i →
  (get_tool R jira arguments w1).1 =
    if bool_decide ("comments" ∈ names) then
      match comments R i with
      | inr cs =>
          inr (text_content
                 (Dumps EmptyString
                    (VDict (issue_data jira i
                            ++ [("comments", VList (comment_data <$> cs))]))))
      | inl e => inl e
      end
    else inr (text_content (Dumps EmptyString (VDict (issue_data jira i)))).
Proof.
  intros Hkey Hexpand Hissue.
  unfold get_tool, bind, subscript, get. rewrite Hkey. cbn [ret].
  destruct Hexpand as [[Hd ->] | He].
  - rewrite Hd. cbn [truthy ret]. unfold call. cbn [expand_argument] in Hissue.
    rewrite Hissue. reflexivity.
  - rewrite He. cbn [default from_option id]. rewrite truthy_strings.
    destruct names as [|n names].
    + cbn [ret]. unfold call. cbn [expand_argument] in Hissue. rewrite Hissue. reflexivity.
    + unfold lift. rewrite join_strings, contains_strings. cbn [ret].
      unfold call. cbn [expand_argument] in Hissue. rewrite Hissue.
      destruct (bool_decide ("comments" ∈ n :: names)); [|reflexivity].
      by destruct (comments R i).
Qed.

(** C8.  In a get call whose expand argument is absent or a list of names
    (and whose issue is fetched), the record that is returned has a
    comments key if and only if the list names "comments"; in that case
    the key holds the comments of the issue, and otherwise the record is
    the plain record of the issue. *)
Theorem get_has_comments_iff_expanded {L : Lower} R arguments w jira w1 issue_key
    (expand : option (list string)) i cs
    (Hclient : get_jira_client R w = (inr jira, w1))
    (Hkey : arguments !! "issue_key" = Some issue_key)
    (Hexpand : arguments !! "expand" = (fun l => VList (VStr <$> l)) <$> expand)
    (Hissue : issue R issue_key (expand_argument (default [] expand)) = inr i)
    (Hcomments : "comments" ∈ default [] expand → comments R i = inr cs) :
  ∃ data,
    (call_tool R "jira_get_issue" arguments w).1 =
      [ {| type := "text"; text := Dumps EmptyString (VDict data) |} ] ∧
    ("comments" ∈ data.*1 ↔ "comments" ∈ default [] expand) ∧
    data = (issue_data jira i ++
            if bool_decide ("comments" ∈ default [] expand)
            then [("comments", VList (comment_data <$> cs))] else [])%list.
Proof.
  assert (Hrun := get_tool_runs R jira arguments w1 issue_key (default [] expand) i Hkey).
  rewrite (call_tool_with_client _ _ _ _ _ _ Hclient).
  change (String.eqb "jira_get_issue" "jira_search_issues") with false.
  change (String.eqb "jira_get_issue" "jira_get_issue") with true. cbv iota.
  destruct (get_tool R jira arguments w1) as [r w2]. cbn [fst] in Hrun.
  rewrite Hrun; [|destruct expand; rewrite Hexpand; [by right | by left] | exact Hissue].
  destruct (bool_decide_reflect ("comments" ∈ default [] expand)) as [Hin|Hnin].
  - rewrite (Hcomments Hin). eexists. split; [reflexivity|]. split; [|reflexivity].
    split; [by intros _|]. intros _. rewrite fmap_app. apply elem_of_app. right.
    apply list_elem_of_here.
  - exists (issue_data jira i). rewrite app_nil_r. split; [reflexivity|].
    split; [|reflexivity].
    split; [intros H; by apply comments_not_in_issue_data in H | by intros H].
Qed.

Lemma get_has_comments_iff_expanded_witness :
  ∃ data,
    (call_tool (tracker workflow) "jira_get_issue" get_arguments connected).1 =
      [ {| type := "text"; text := Dumps EmptyString (VDict data) |} ] ∧
    ("comments" ∈ data.*1 ↔ "comments" ∈ ["changelog"; "comments"]) ∧
    data = (issue_data the_client PROJ_1 ++
            [("comments",
              VList [ VDict [ ("author", VStr "Ada"); ("body", VStr "seen");
                              ("created", VStr "2024-01-03") ] ])])%list.
Proof.
  exact (get_has_comments_iff_expanded (tracker workflow) get_arguments connected
           the_client connected (VStr "PROJ-1") (Some ["changelog"; "comments"]) PROJ_1
           [ {| author_displayName := "Ada"; body := "seen";
                comment_created := "2024-01-03" |} ]
           eq_refl eq_refl eq_refl eq_refl (fun _ => eq_refl)).
Defined.

(** ** The catalog *)

(** C9, as stated, fails: [issue_type] of the create tool is listed as
    required and declares the default "Task". *)
Lemma issue_type_required_with_default :
  ∃ t spec,
    t ∈ list_tools ∧ name t = "jira_create_issue" ∧
    ("issue_type", spec) ∈ properties (inputSchema t) ∧
    "issue_type" ∈ required_of t ∧
    p_default spec = Some (VStr "Task").
Proof.
  eexists _, _. split; [|split; [|split; [|split]]].
  - do 2 apply list_elem_of_further. apply list_elem_of_here.
  - reflexivity.
  - simpl. do 3 apply list_elem_of_further. apply list_elem_of_here.
  - simpl. do 2 apply list_elem_of_further. apply list_elem_of_here.
  - reflexivity.
Qed.

(** C9, amended.  The catalog has the eight tools; no tool declares two
    parameters with the same name; and a parameter listed as required
    declares no default, except [issue_type] of the create tool, which is
    listed as required and declares the default "Task". *)
Theorem catalog_invariant :
  name <$> list_tools =
    [ "jira_search_issues"; "jira_get_issue"; "jira_create_issue"; "jira_update_issue";
      "jira_add_comment"; "jira_transition_issue"; "jira_get_transitions";
      "jira_list_projects" ] ∧
  Forall (fun t =>
            NoDup (properties (inputSchema t)).*1 ∧
            Forall (fun ps =>
                      ps.1 ∈ required_of t →
                      p_default ps.2 = None ∨
                      (name t = "jira_create_issue" ∧ ps.1 = "issue_type" ∧
                       p_default ps.2 = Some (VStr "Task")))
                   (properties (inputSchema t)))
         list_tools.
Proof.
  split; [reflexivity|].
  unfold list_tools.
  repeat apply List.Forall_cons; try apply List.Forall_nil;
    (split; [by apply (bool_decide_unpack _); vm_compute|]);
    cbn [properties inputSchema name required_of required default from_option id];
    repeat apply List.Forall_cons; try apply List.Forall_nil;
    cbn [fst snd p_default param param_default param_array];
    first [ by intros _; left
          | by intros _; right
          | intros H;
            repeat (apply elem_of_cons in H as [Heq|H]; [discriminate Heq|]);
            by apply elem_of_nil in H ].
Qed.

(** ** Missing required arguments *)






(** * Further properties of the dispatcher *)

(** ** What an invocation leaves alone *)

Lemma extends_refl P w : extends P w w.
Proof.
  split; [reflexivity|]. split; [auto|]. exists []. by rewrite app_nil_r.
Qed.

Lemma extends_trans P w1 w2 w3 : extends P w1 w2 → extends P w2 w3 → extends P w1 w3.
Proof.
  intros (He1 & Hc1 & n1 & Hn1 & Hp1) (He2 & Hc2 & n2 & Hn2 & Hp2).
  split; [congruence|]. split; [auto|].
  exists (n1 ++ n2)%list. rewrite Hn2, Hn1, app_assoc. split; [reflexivity|].
  apply Forall_app. by split.
Qed.

Lemma extends_weaken (P Q : Request → Prop) w w' :
  (∀ rq, P rq → Q rq) → extends P w w' → extends Q w w'.
Proof.
  intros HPQ (He & Hc & new & Hn & Hp). split; [exact He|]. split; [exact Hc|].
  exists new. split; [exact Hn|]. eapply Forall_impl; [exact Hp|]. intros c. apply HPQ.
Qed.

Lemma extends_new_calls P w w' :
  extends P w w' → Forall (fun c => P (request c)) (new_calls w w').
Proof.
  intros (_ & _ & new & Hn & Hp). unfold new_calls. by rewrite Hn, drop_app_length.
Qed.

Section Keeps.

Context (P : Request → Prop) {A B : Type}.

Lemma keeps_ret (a : A) : keeps P (ret a).
Proof. intros w. apply extends_refl. Qed.

Lemma keeps_raise (e : exn) : keeps P (raise e : M A).
Proof. intros w. apply extends_refl. Qed.

Lemma keeps_lift (r : exn + A) : keeps P (lift r).
Proof. intros w. apply extends_refl. Qed.

Lemma keeps_call (rq : Request) (r : exn + A) : P rq → keeps P (call rq r).
Proof.
  intros Hrq w. split; [reflexivity|]. split; [auto|]. eexists. split; [reflexivity|].
  constructor; [exact Hrq | constructor].
Qed.

Lemma keeps_bind (m : M A) (k : A → M B) :
  keeps P m → (∀ a, keeps P (k a)) → keeps P (bind m k).
Proof.
  intros Hm Hk w. unfold bind. specialize (Hm w).
  destruct (m w) as [[e|a] w1]; simpl in *; [exact Hm|].
  eapply extends_trans; [exact Hm | apply Hk].
Qed.

End Keeps.

Lemma keeps_weaken (P Q : Request → Prop) {A} (m : M A) :
  (∀ rq, P rq → Q rq) → keeps P m → keeps Q m.
Proof. intros HPQ Hm w. eapply extends_weaken; [exact HPQ | apply Hm]. Qed.

Lemma keeps_subscript P arguments k : keeps P (subscript arguments k).
Proof.
  unfold subscript. destruct (arguments !! k); [apply keeps_ret | apply keeps_raise].
Qed.

(** Obtaining the handle: the only call is the creation, and only when
    there is no handle yet. *)
Lemma keeps_get_jira_client P R :
  (∀ url email token, P (NewJIRA url email token)) → keeps P (get_jira_client R).
Proof.
  intros HP w. unfold get_jira_client, bind, read_jira_client, getenv. simpl.
  destruct (_jira_client w) as [j|] eqn:Hc; simpl; [apply extends_refl|].
  destruct (configured (environ w !! "JIRA_URL")) as [url|]; [|apply extends_refl].
  destruct (configured (environ w !! "JIRA_EMAIL")) as [email|]; [|apply extends_refl].
  destruct (configured (environ w !! "JIRA_API_TOKEN")) as [token|]; [|apply extends_refl].
  unfold call, set_jira_client, ret. simpl.
  destruct (new_JIRA R url email token) as [e|j]; simpl.
  - split; [reflexivity|]. split; [simpl; congruence|]. eexists. split; [reflexivity|].
    constructor; [apply HP | constructor].
  - split; [reflexivity|]. split; [congruence|]. eexists. split; [reflexivity|].
    constructor; [apply HP | constructor].
Qed.

(** One step of a proof of [keeps]: follow the structure of the code. *)
Ltac keeps_step :=
  lazymatch goal with
  | |- keeps _ (bind _ _) => apply keeps_bind; [|intros ?]
  | |- keeps _ (ret _) => apply keeps_ret
  | |- keeps _ (raise _) => apply keeps_raise
  | |- keeps _ (lift _) => apply keeps_lift
  | |- keeps _ (call _ _) => apply keeps_call; reflexivity
  | |- keeps _ (subscript _ _) => apply keeps_subscript
  | |- keeps _ (if ?b then _ else _) => destruct b
  | |- keeps _ (match ?x with _ => _ end) => destruct x
  end.

Lemma call_tool_body_handler {L : Lower} R tool arguments :
  call_tool_body R tool arguments =
    bind (get_jira_client R) (fun jira => handler R jira tool arguments).
Proof. reflexivity. Qed.

Lemma call_tool_world {L : Lower} R tool arguments w :
  (call_tool R tool arguments w).2 = (call_tool_body R tool arguments w).2.
Proof.
  unfold call_tool. by destruct (call_tool_body R tool arguments w) as [[e|out] w'].
Qed.

Ltac unfold_tools :=
  unfold handler, search_tool, get_tool, create_tool, update_tool, add_comment_tool,
    transition_tool, get_transitions_tool, list_projects_tool.

(** No tool creates a client: that is left to [get_jira_client]. *)
Lemma handler_no_creation {L : Lower} R jira tool arguments :
  keeps no_creation (handler R jira tool arguments).
Proof. unfold_tools. repeat keeps_step. Qed.

(** The tools outside [mutating_tools] only read. *)
Lemma handler_reads {L : Lower} R jira tool arguments :
  tool ∉ mutating_tools → keeps reads (handler R jira tool arguments).
Proof.
  intros Hnot. unfold handler.
  destruct (String.eqb_spec tool "jira_search_issues"); [unfold_tools; repeat keeps_step|].
  destruct (String.eqb_spec tool "jira_get_issue"); [unfold_tools; repeat keeps_step|].
  destruct (String.eqb_spec tool "jira_create_issue") as [->|_].
  { exfalso. apply Hnot. apply list_elem_of_here. }
  destruct (String.eqb_spec tool "jira_update_issue") as [->|_].
  { exfalso. apply Hnot. apply list_elem_of_further, list_elem_of_here. }
  destruct (String.eqb_spec tool "jira_add_comment") as [->|_].
  { exfalso. apply Hnot. do 2 apply list_elem_of_further. apply list_elem_of_here. }
  destruct (String.eqb_spec tool "jira_transition_issue") as [->|_].
  { exfalso. apply Hnot. do 3 apply list_elem_of_further. apply list_elem_of_here. }
  destruct (String.eqb_spec tool "jira_get_transitions"); [unfold_tools; repeat keeps_step|].
  destruct (String.eqb_spec tool "jira_list_projects"); [unfold_tools; repeat keeps_step|].
  apply keeps_ret.
Qed.

Lemma keeps_call_tool_body {L : Lower} P R tool arguments :
  (∀ url email token, P (NewJIRA url email token)) →
  (∀ jira, keeps P (handler R jira tool arguments)) →
  keeps P (call_tool_body R tool arguments).
Proof.
  intros HP Hh. rewrite call_tool_body_handler.
  apply keeps_bind; [by apply keeps_get_jira_client | exact Hh].
Qed.

(** X1.  An invocation never changes the environment, never replaces or
    drops a handle that is already there, and only appends to the log of
    the calls made to the client. *)
Theorem invocation_keeps_process_state {L : Lower} R tool arguments w :
  environ (call_tool R tool arguments w).2 = environ w ∧
  (∀ j, _jira_client w = Some j → _jira_client (call_tool R tool arguments w).2 = Some j) ∧
  ∃ new, calls (call_tool R tool arguments w).2 = (calls w ++ new)%list.
Proof.
  rewrite call_tool_world.
  destruct (keeps_call_tool_body (fun _ => True) R tool arguments) with (w := w)
    as (He & Hc & new & Hn & _).
  - done.
  - intros jira. eapply keeps_weaken; [|apply handler_no_creation]. done.
  - split; [exact He|]. split; [exact Hc|]. by exists new.
Qed.

(** X2.  The client is created at most once: when an invocation has
    obtained the handle, the handle is stored, and the next invocation,
    whatever its tool and arguments, keeps it and creates no client. *)
Theorem client_created_at_most_once {L : Lower} R tool1 arguments1 tool2 arguments2 w jira w1
    (Hclient : get_jira_client R w = (inr jira, w1)) :
  let w' := (call_tool R tool1 arguments1 w).2 in
  let w'' := (call_tool R tool2 arguments2 w').2 in
  _jira_client w' = Some jira ∧
  _jira_client w'' = Some jira ∧
  Forall (fun c => is_creation (request c) = false) (new_calls w' w'').
Proof.
  intros w' w''.
  assert (H1 : _jira_client w1 = Some jira).
  { apply get_jira_client_returns in Hclient as [[Hc ->]|(u & m & t & _ & _ & ->)]; done. }
  assert (Hw' : _jira_client w' = Some jira).
  { unfold w'. rewrite call_tool_world, call_tool_body_handler. unfold bind.
    rewrite Hclient. by apply (handler_no_creation R jira tool1 arguments1 w1). }
  assert (Hsecond : extends no_creation w' w'').
  { unfold w''. rewrite call_tool_world, call_tool_body_handler. unfold bind.
    rewrite (get_jira_client_cached R w' jira Hw').
    apply handler_no_creation. }
  split; [exact Hw'|]. split; [by apply Hsecond|].
  exact (extends_new_calls no_creation w' w'' Hsecond).
Qed.

Lemma client_created_at_most_once_witness :
  _jira_client (call_tool (tracker workflow) "jira_get_issue" get_arguments
                          configured_env).2
  = Some the_client.
Proof.
  exact (proj1 (client_created_at_most_once (tracker workflow)
                  "jira_get_issue" get_arguments "jira_list_projects" ∅
                  configured_env the_client
                  {| _jira_client := Some the_client; environ := environ configured_env;
                     calls := [ {| request := NewJIRA "https://jira.example"
                                                "ada@example.org" "s3cret";
                                   raised := None |} ] |}
                  eq_refl)).
Defined.

(** A variable of the configuration: set and not empty. *)
Lemma configured_None o : configured o = None ↔ o = None ∨ o = Some EmptyString.
Proof.
  destruct o as [s|]; simpl; [|by split; [left|]].
  destruct (String.eqb_spec s EmptyString) as [->|Hne].
  - split; [by right | done].
  - split; [done | intros [|[=]]; done].
Qed.

(** X3.  In a process that has no client yet, when one of JIRA_URL,
    JIRA_EMAIL, JIRA_API_TOKEN is unset or empty, every invocation, whatever
    the tool and the arguments, is answered with the configuration error;
    nothing is called and the process state is unchanged. *)
Theorem missing_configuration_fails_every_tool {L : Lower} R tool arguments w k
    (Hnone : _jira_client w = None)
    (Hk : k ∈ ["JIRA_URL"; "JIRA_EMAIL"; "JIRA_API_TOKEN"])
    (Hunset : environ w !! k = None ∨ environ w !! k = Some EmptyString) :
  call_tool R tool arguments w =
    ([ {| type := "text";
          text := Plain ("❌ Error: Missing Jira configuration. "
                         ++ "Required environment variables: "
                         ++ "JIRA_URL, JIRA_EMAIL, JIRA_API_TOKEN") |} ], w).
Proof.
  apply configured_None in Hunset.
  apply (call_tool_without_client R tool arguments w (ValueError missing_configuration) w).
  unfold get_jira_client, bind, read_jira_client, getenv. simpl. rewrite Hnone. simpl.
  rewrite !elem_of_cons, elem_of_nil in Hk.
  destruct Hk as [->|[->|[->|[]]]]; rewrite Hunset;
    repeat match goal with |- context [configured ?o] => destruct (configured o) end;
    reflexivity.
Qed.

Lemma missing_configuration_fails_every_tool_witness :
  call_tool (tracker workflow) "jira_list_projects" ∅ unconfigured =
    ([ {| type := "text";
          text := Plain ("❌ Error: Missing Jira configuration. "
                         ++ "Required environment variables: "
                         ++ "JIRA_URL, JIRA_EMAIL, JIRA_API_TOKEN") |} ], unconfigured).
Proof.
  refine (missing_configuration_fails_every_tool (tracker workflow) "jira_list_projects" ∅
            unconfigured "JIRA_EMAIL" eq_refl _ (or_introl eq_refl)).
  apply list_elem_of_further, list_elem_of_here.
Defined.

(** X4.  A creation of the client that fails is not remembered: the
    invocation is answered by the handler of the exception, the only call
    logged is the failed creation, and the process still has no client, so
    the next invocation tries again. *)
Theorem failed_creation_is_not_cached {L : Lower} R tool arguments w url email token e
    (Hnone : _jira_client w = None)
    (Hurl : configured (environ w !! "JIRA_URL") = Some url)
    (Hemail : configured (environ w !! "JIRA_EMAIL") = Some email)
    (Htoken : configured (environ w !! "JIRA_API_TOKEN") = Some token)
    (Hfail : new_JIRA R url email token = inl e) :
  call_tool R tool arguments w =
    (handle e,
     {| _jira_client := None; environ := environ w;
        calls := calls w ++ [ {| request := NewJIRA url email token;
                                 raised := Some e |} ] |}).
Proof.
  apply call_tool_without_client.
  unfold get_jira_client, bind, read_jira_client, getenv. simpl. rewrite Hnone. simpl.
  rewrite Hurl, Hemail, Htoken. unfold call. rewrite Hfail. simpl. by rewrite Hnone.
Qed.

Lemma failed_creation_is_not_cached_witness :
  _jira_client (call_tool (unreachable (JIRAError (Some 401) (Some "Unauthorized")))
                          "jira_list_projects" ∅ configured_env).2 = None.
Proof.
  exact (f_equal (fun p => _jira_client p.2)
           (failed_creation_is_not_cached
              (unreachable (JIRAError (Some 401) (Some "Unauthorized")))
              "jira_list_projects" ∅ configured_env
              "https://jira.example" "ada@example.org" "s3cret"
              (JIRAError (Some 401) (Some "Unauthorized"))
              eq_refl eq_refl eq_refl eq_refl eq_refl)).
Defined.

(** ** Which calls an invocation makes *)

(** X5.  Searching, getting an issue, listing transitions, listing
    projects, and calling a name that is no tool never change the tracker:
    whatever the arguments and whatever the client answers, none of the
    calls logged by the invocation is a create, an update, a comment or a
    transition. *)
Theorem read_tools_never_mutate {L : Lower} R tool arguments w
    (Hread : tool ∉ mutating_tools) :
  Forall (fun c => mutating (request c) = false)
         (new_calls w (call_tool R tool arguments w).2).
Proof.
  rewrite call_tool_world.
  apply (extends_new_calls reads).
  apply keeps_call_tool_body; [done|]. intros jira. by apply handler_reads.
Qed.

Lemma search_is_a_read_tool : "jira_search_issues" ∉ mutating_tools.
Proof.
  intros H. unfold mutating_tools in H.
  repeat (apply elem_of_cons in H as [Heq|H]; [discriminate Heq|]).
  by apply elem_of_nil in H.
Qed.

Lemma read_tools_never_mutate_witness :
  Forall (fun c => mutating (request c) = false)
         (new_calls configured_env
            (call_tool (tracker workflow) "jira_search_issues"
                       {[ "jql" := VStr "project = PROJ" ]} configured_env).2).
Proof.
  exact (read_tools_never_mutate (tracker workflow) "jira_search_issues"
           {[ "jql" := VStr "project = PROJ" ]} configured_env search_is_a_read_tool).
Defined.

Lemma writes_last_reads new :
  Forall (fun c => reads (request c)) new → writes_last new.
Proof. intros H. exists new, []. rewrite app_nil_r. by repeat split; [|simpl; lia]. Qed.

Lemma once_of_keeps {A} (m : M A) : keeps reads m → once m.
Proof.
  intros Hm w. destruct (Hm w) as (_ & _ & new & Hn & Hp).
  exists new. split; [exact Hn | by apply writes_last_reads].
Qed.

Lemma once_bind_reads {A B} (m : M A) (k : A → M B) :
  keeps reads m → (∀ a, once (k a)) → once (bind m k).
Proof.
  intros Hm Hk w. unfold bind. destruct (Hm w) as (_ & _ & new1 & Hn1 & Hp1).
  destruct (m w) as [[e|a] w1]; simpl in *.
  - exists new1. split; [exact Hn1 | by apply writes_last_reads].
  - destruct (Hk a w1) as (new2 & Hn2 & pre & post & -> & Hpre & Hpost).
    exists (new1 ++ pre ++ post)%list. rewrite Hn2, Hn1, <- app_assoc.
    split; [reflexivity|].
    exists (new1 ++ pre)%list, post. rewrite <- app_assoc. repeat split; [|exact Hpost].
    apply Forall_app. by split.
Qed.

(** A call followed by nothing but the construction of the answer. *)
Lemma once_call_ret {A B} (rq : Request) (r : exn + A) (f : A → B) :
  once (bind (call rq r) (fun a => ret (f a))).
Proof.
  intros w. unfold bind, call, ret.
  exists [ {| request := rq; raised := match r with inl e => Some e | inr _ => None end |} ].
  split; [by destruct r|].
  exists [], [ {| request := rq; raised := match r with inl e => Some e | inr _ => None end |} ].
  repeat split; [constructor | simpl; lia].
Qed.

Ltac once_step :=
  lazymatch goal with
  | |- once (bind (call (CreateIssue _) _) _) => apply once_call_ret
  | |- once (bind (call (UpdateIssue _ _) _) _) => apply once_call_ret
  | |- once (bind (call (AddComment _ _) _) _) => apply once_call_ret
  | |- once (bind (call (TransitionIssue _ _ _) _) _) => apply once_call_ret
  | |- once (bind _ _) => apply once_bind_reads; [solve [repeat keeps_step] | intros ?]
  | |- once (if ?b then _ else _) => destruct b
  | |- once (match ?x with _ => _ end) => destruct x
  | |- once _ => apply once_of_keeps; solve [repeat keeps_step]
  end.

Lemma once_handler {L : Lower} R jira tool arguments : once (handler R jira tool arguments).
Proof. unfold_tools. repeat once_step. Qed.

(** X6.  Every invocation changes the tracker at most once, and that is
    the last thing it asks of the client: the calls it logs are calls that
    only read, followed by at most one more call. *)
Theorem at_most_one_mutation_and_last {L : Lower} R tool arguments w :
  ∃ pre post,
    new_calls w (call_tool R tool arguments w).2 = (pre ++ post)%list ∧
    Forall (fun c => mutating (request c) = false) pre ∧
    (length post ≤ 1)%nat.
Proof.
  rewrite call_tool_world, call_tool_body_handler.
  destruct (once_bind_reads (get_jira_client R)
              (fun jira => handler R jira tool arguments)) with (w := w)
    as (new & Hn & pre & post & -> & Hpre & Hpost).
  - by apply keeps_get_jira_client.
  - intros jira. apply once_handler.
  - exists pre, post. unfold new_calls. rewrite Hn, drop_app_length. by repeat split.
Qed.

(** ** The search tool *)

Lemma search_issue_data_complete i :
  complete i = true → ∃ v, search_issue_data i = inr v ∧ summarises i v.
Proof.
  unfold complete, search_issue_data, summarises.
  destruct (found_summary i); [discriminate| |];
    (destruct (found_status i); [discriminate|discriminate|]);
    (destruct (found_issuetype i); [discriminate|discriminate|]);
    (destruct (found_assignee i); [discriminate| |]);
    (destruct (found_reporter i); [discriminate| |]);
    (destruct (found_priority i); [discriminate| |]);
    (destruct (found_created i); [discriminate| |]);
    (destruct (found_updated i); [discriminate| |]);
    intros _; eexists; (split; [reflexivity|]); eexists; (split; [reflexivity|]);
    (split; [reflexivity|]); cbn [default from_option id];
    do 4 apply list_elem_of_further; apply list_elem_of_here.
Qed.

Lemma search_issue_data_incomplete i :
  complete i = false →
  ∃ class attribute, search_issue_data i = inl (no_attribute class attribute).
Proof.
  unfold complete, search_issue_data.
  destruct (found_summary i); [by eexists _, _| |];
    (destruct (found_status i); [by eexists _, _|by eexists _, _|]);
    (destruct (found_issuetype i); [by eexists _, _|by eexists _, _|]);
    (destruct (found_assignee i); [by eexists _, _| |]);
    (destruct (found_reporter i); [by eexists _, _| |]);
    (destruct (found_priority i); [by eexists _, _| |]);
    (destruct (found_created i); [by eexists _, _| |]);
    (destruct (found_updated i); [by eexists _, _| |]);
    discriminate.
Qed.

Lemma search_results_complete issues :
  Forall (fun i => complete i = true) issues →
  ∃ summaries, search_results issues = inr summaries ∧ Forall2 summarises issues summaries.
Proof.
  induction 1 as [|i issues Hi _ (summaries & Hs & Hall)]; [by exists []|].
  destruct (search_issue_data_complete i Hi) as (v & Hv & Hsum).
  exists (v :: summaries). cbn [search_results]. rewrite Hv, Hs. split; [reflexivity|].
  by constructor.
Qed.

Lemma search_results_incomplete issues :
  ¬ Forall (fun i => complete i = true) issues →
  ∃ class attribute, search_results issues = inl (no_attribute class attribute).
Proof.
  induction issues as [|i issues IH]; intros Hnot; [by destruct Hnot|].
  cbn [search_results]. destruct (complete i) eqn:Hi.
  - destruct (search_issue_data_complete i Hi) as (v & -> & _).
    destruct IH as (c & a & ->); [|by exists c, a].
    intros Hall. apply Hnot. by constructor.
  - destruct (search_issue_data_incomplete i Hi) as (c & a & ->). by exists c, a.
Qed.

(** X7.  A search that the tracker answers: the query is sent with a cap
    of 50 results when max_results is not given and without a selection of
    fields when fields is not given.  When every issue returned has the
    attributes the summary reads, the answer is a success whose summary
    line counts the issues and whose payload has one summary per issue, in
    the order of the tracker (an unassigned issue is "Unassigned"); no
    match gives 0 issues and an empty list.  When an issue lacks one of
    these attributes, as after a selection of fields that leaves it out,
    the answer is the catch-all failure about the missing attribute. *)
Theorem search_reports_every_issue {L : Lower} R arguments w jira w1 jql issues
    (Hclient : get_jira_client R w = (inr jira, w1))
    (Hjql : arguments !! "jql" = Some jql)
    (Hfound : search_issues R jql
                (match arguments !! "max_results" with Some n => n | None => VInt 50 end)
                (match arguments !! "fields" with Some f => f | None => VNone end)
              = inr issues) :
  let searched :=
    after_calls w1
      [ {| request :=
             SearchIssues jql
               (match arguments !! "max_results" with Some n => n | None => VInt 50 end)
               (match arguments !! "fields" with Some f => f | None => VNone end);
           raised := None |} ] in
  (Forall (fun i => complete i = true) issues →
   ∃ summaries,
     call_tool R "jira_search_issues" arguments w =
       ([ {| type := "text";
             text := Dumps ("Found " ++ pretty (length issues) ++ " issue(s):" ++ nl ++ nl)
                           (VList summaries) |} ], searched) ∧
     Forall2 summarises issues summaries) ∧
  (issues = [] →
   call_tool R "jira_search_issues" arguments w =
     ([ {| type := "text";
           text := Dumps ("Found 0 issue(s):" ++ nl ++ nl) (VList []) |} ], searched)) ∧
  (¬ Forall (fun i => complete i = true) issues →
   ∃ class attribute,
     call_tool R "jira_search_issues" arguments w =
       ([ {| type := "text";
             text := Plain ("❌ Error: '" ++ class ++ "' object has no attribute '"
                            ++ attribute ++ "'") |} ], searched)).
Proof.
  intros searched.
  assert (Hrun : call_tool R "jira_search_issues" arguments w =
                 match search_results issues with
                 | inr results =>
                     ([ {| type := "text";
                           text := Dumps ("Found " ++ pretty (length results)
                                          ++ " issue(s):" ++ nl ++ nl)
                                         (VList results) |} ], searched)
                 | inl e => (handle e, searched)
                 end).
  { rewrite (call_tool_with_client _ _ _ _ _ _ Hclient).
    change (String.eqb "jira_search_issues" "jira_search_issues") with true. cbv iota.
    unfold search_tool, bind, subscript, get, call, lift. rewrite Hjql. cbn [ret].
    change (default (VInt 50) (arguments !! "max_results"))
      with (match arguments !! "max_results" with Some n => n | None => VInt 50 end).
    change (default VNone (arguments !! "fields"))
      with (match arguments !! "fields" with Some f => f | None => VNone end).
    rewrite Hfound. by destruct (search_results issues). }
  rewrite Hrun. split; [|split].
  - intros Hall. destruct (search_results_complete issues Hall) as (summaries & -> & HF).
    exists summaries. split; [|exact HF]. by rewrite (Forall2_length _ _ _ HF).
  - by intros ->.
  - intros Hnot. destruct (search_results_incomplete issues Hnot) as (c & a & ->).
    by exists c, a.
Qed.

Lemma search_reports_every_issue_witness :
  ∃ summaries,
    call_tool (tracker workflow) "jira_search_issues"
              {[ "jql" := VStr "project = PROJ" ]} connected =
      ([ {| type := "text";
            text := Dumps ("Found " ++ pretty (length [FOUND_1]) ++ " issue(s):" ++ nl ++ nl)
                          (VList summaries) |} ],
       after_calls connected
         [ {| request := SearchIssues (VStr "project = PROJ") (VInt 50) VNone;
              raised := None |} ]) ∧
    Forall2 summarises [FOUND_1] summaries.
Proof.
  refine (proj1 (search_reports_every_issue (tracker workflow)
                   {[ "jql" := VStr "project = PROJ" ]}
                   connected the_client connected (VStr "project = PROJ") [FOUND_1]
                   eq_refl eq_refl eq_refl) _).
  by repeat constructor.
Defined.

(** ** The list-projects tool *)

(** X8.  Listing projects keeps the order of the tracker and leaves out
    exactly the projects that are archived, unless include_archived is
    given and true; a project without the archived attribute is always
    listed.  The summary line counts the projects listed. *)
Theorem projects_listed_unless_archived {L : Lower} R arguments w jira w1 ps
    (Hclient : get_jira_client R w = (inr jira, w1))
    (Hprojects : projects R = inr ps) :
  ∃ listed,
    (call_tool R "jira_list_projects" arguments w).1 =
      [ {| type := "text";
           text := Dumps ("Found " ++ pretty (length listed) ++ " project(s):" ++ nl ++ nl)
                         (VList (project_data jira <$> listed)) |} ] ∧
    sublist listed ps ∧
    (∀ p, p ∈ listed ↔
          p ∈ ps ∧
          (truthy (match arguments !! "include_archived" with
                   | Some v => v
                   | None => VBool false
                   end) = true
           ∨ project_archived p ≠ Some true)) ∧
    (truthy (match arguments !! "include_archived" with
             | Some v => v
             | None => VBool false
             end) = true → listed = ps).
Proof.
  set (include_archived := match arguments !! "include_archived" with
                           | Some v => v
                           | None => VBool false
                           end).
  exists (filter (fun p => keep_project include_archived p = true) ps).
  split; [|split; [|split]].
  - rewrite (call_tool_with_client _ _ _ _ _ _ Hclient).
    change (String.eqb "jira_list_projects" "jira_search_issues") with false.
    change (String.eqb "jira_list_projects" "jira_get_issue") with false.
    change (String.eqb "jira_list_projects" "jira_create_issue") with false.
    change (String.eqb "jira_list_projects" "jira_update_issue") with false.
    change (String.eqb "jira_list_projects" "jira_add_comment") with false.
    change (String.eqb "jira_list_projects" "jira_transition_issue") with false.
    change (String.eqb "jira_list_projects" "jira_get_transitions") with false.
    change (String.eqb "jira_list_projects" "jira_list_projects") with true. cbv iota.
    unfold list_projects_tool, bind, call, get. rewrite Hprojects. cbn [ret fst].
    by rewrite length_fmap.
  - apply sublist_filter.
  - intros p. rewrite list_elem_of_filter. unfold keep_project.
    destruct (truthy include_archived); destruct (project_archived p) as [[|]|]; simpl;
      (split; [intros [H1 H2]; split; [exact H2|] | intros [H1 H2]; split; [|exact H1]]);
      try done; try (by left); try (by right); try (by destruct H2).
  - intros Hall. clear Hprojects. induction ps as [|p ps IH]; [reflexivity|].
    rewrite filter_cons_True; [by rewrite IH|].
    unfold keep_project. by rewrite Hall.
Qed.

Lemma projects_listed_unless_archived_witness :
  ∃ listed,
    (call_tool (project_tracker archive) "jira_list_projects" ∅ connected).1 =
      [ {| type := "text";
           text := Dumps ("Found " ++ pretty (length listed) ++ " project(s):" ++ nl ++ nl)
                         (VList (project_data the_client <$> listed)) |} ] ∧
    sublist listed archive ∧
    (∀ p, p ∈ listed ↔
          p ∈ archive ∧
          (truthy (match (∅ : gmap string value) !! "include_archived" with
                   | Some v => v
                   | None => VBool false
                   end) = true
           ∨ project_archived p ≠ Some true)) ∧
    (truthy (match (∅ : gmap string value) !! "include_archived" with
             | Some v => v
             | None => VBool false
             end) = true → listed = archive).
Proof.
  exact (projects_listed_unless_archived (project_tracker archive) ∅ connected the_client
           connected archive eq_refl eq_refl).
Defined.

(** ** The two transition tools together *)

Lemma earliest_named {L : Lower} token ts t :
  t ∈ ts → names token t →
  ∃ before u after,
    ts = (before ++ u :: after)%list ∧
    Forall (fun v => ¬ names token v) before ∧ names token u.
Proof.
  induction ts as [|v ts IH]; intros Hin Ht; [by apply elem_of_nil in Hin|].
  destruct (matches v token) eqn:Hv.
  - exists [], v, ts. repeat split; [constructor | by apply matches_names].
  - apply matches_not_names in Hv.
    apply elem_of_cons in Hin as [->|Hin]; [contradiction|].
    destruct (IH Hin Ht) as (before & u & after & -> & Hb & Hu).
    exists (v :: before), u, after. repeat split; [by constructor | exact Hu].
Qed.

(** X9.  What list-transitions reports, the transition tool accepts: for
    an issue whose transitions all have an id, a token that is the id of a
    reported transition, or its name in any letter case, is never answered
    with not-found; a transition that the token names is applied, and that
    is the only change asked of the tracker. *)
Theorem advertised_transitions_resolve {L : Lower} R arguments w jira w1 issue_key token ts t
    (Hclient : get_jira_client R w = (inr jira, w1))
    (Hkey : arguments !! "issue_key" = Some issue_key)
    (Htoken : arguments !! "transition" = Some (VStr token))
    (Hts : transitions R issue_key = inr ts)
    (Hids : Forall (fun u => t_id u ≠ EmptyString) ts)
    (Hin : t ∈ ts)
    (Hnamed : lower token = lower (t_name t) ∨ token = t_id t) :
  (call_tool R "jira_get_transitions" arguments w).1 =
    [ {| type := "text";
         text := Dumps EmptyString
                   (VDict [ ("issue", issue_key);
                            ("available_transitions",
                             VList (map (fun u => VDict [ ("id", VStr (t_id u));
                                                          ("name", VStr (t_name u));
                                                          ("to_status", VStr (t_to_name u)) ])
                                        ts)) ]) |} ] ∧
  ∃ u, u ∈ ts ∧ names token u ∧
       request <$> new_calls w1 (call_tool R "jira_transition_issue" arguments w).2 =
         [ GetTransitions issue_key;
           TransitionIssue issue_key (t_id u)
             (match arguments !! "comment" with Some c => c | None => VNone end) ].
Proof.
  split.
  - rewrite (call_tool_with_client _ _ _ _ _ _ Hclient).
    change (String.eqb "jira_get_transitions" "jira_search_issues") with false.
    change (String.eqb "jira_get_transitions" "jira_get_issue") with false.
    change (String.eqb "jira_get_transitions" "jira_create_issue") with false.
    change (String.eqb "jira_get_transitions" "jira_update_issue") with false.
    change (String.eqb "jira_get_transitions" "jira_add_comment") with false.
    change (String.eqb "jira_get_transitions" "jira_transition_issue") with false.
    change (String.eqb "jira_get_transitions" "jira_get_transitions") with true. cbv iota.
    unfold get_transitions_tool, bind, subscript, call. rewrite Hkey. cbn [ret].
    rewrite Hts. reflexivity.
  - assert (Ht : names token t) by (destruct Hnamed; [left | right]; done).
    destruct (earliest_named token ts t Hin Ht) as (before & u & after & -> & Hb & Hu).
    exists u. split; [apply elem_of_app; right; apply list_elem_of_here|].
    split; [exact Hu|].
    assert (Hid : String.eqb (t_id u) EmptyString = false).
    { apply String.eqb_neq. rewrite Forall_app, List.Forall_cons_iff in Hids. apply Hids. }
    rewrite (call_tool_with_client _ _ _ _ _ _ Hclient).
    change (String.eqb "jira_transition_issue" "jira_search_issues") with false.
    change (String.eqb "jira_transition_issue" "jira_get_issue") with false.
    change (String.eqb "jira_transition_issue" "jira_create_issue") with false.
    change (String.eqb "jira_transition_issue" "jira_update_issue") with false.
    change (String.eqb "jira_transition_issue" "jira_add_comment") with false.
    change (String.eqb "jira_transition_issue" "jira_transition_issue") with true. cbv iota.
    unfold transition_tool, bind, subscript, call, lift, get. rewrite Hkey, Htoken. cbn [ret].
    rewrite Hts. rewrite (find_transition_some _ _ _ _ Hb Hu). rewrite Hid. cbn [negb].
    change (default VNone (arguments !! "comment"))
      with (match arguments !! "comment" with Some c => c | None => VNone end).
    unfold new_calls.
    destruct (transition_issue R issue_key (t_id u) _); cbn [snd calls ret];
      rewrite <- app_assoc, drop_app_length; reflexivity.
Qed.

Lemma advertised_transitions_resolve_witness :
  ∃ u, u ∈ workflow ∧ names "DONE" u ∧
       request <$> new_calls connected
                     (call_tool (tracker workflow) "jira_transition_issue"
                                (transition_arguments "DONE") connected).2 =
         [ GetTransitions (VStr "PROJ-1");
           TransitionIssue (VStr "PROJ-1") (t_id u)
             (match transition_arguments "DONE" !! "comment" with
              | Some c => c
              | None => VNone
              end) ].
Proof.
  refine (proj2 (advertised_transitions_resolve (tracker workflow)
                   (transition_arguments "DONE") connected the_client connected
                   (VStr "PROJ-1") "DONE" workflow
                   {| t_id := "31"; t_name := "Done"; t_to_name := "Done" |}
                   eq_refl eq_refl eq_refl eq_refl _ _ (or_introl eq_refl))).
  - repeat constructor; discriminate.
  - apply list_elem_of_further, list_elem_of_here.
Defined.

(** X11.  The token of a transition has to be a string: for an issue with
    at least one transition, a token of another type (say the number 21
    for the id "21") is answered with the catch-all failure about the
    missing [lower], after the transitions were fetched and without any
    transition being applied. *)
Theorem transition_token_must_be_a_string {L : Lower} R arguments w jira w1 issue_key token t ts
    (Hclient : get_jira_client R w = (inr jira, w1))
    (Hkey : arguments !! "issue_key" = Some issue_key)
    (Htoken : arguments !! "transition" = Some token)
    (Hnot : ∀ s, token ≠ VStr s)
    (Hts : transitions R issue_key = inr (t :: ts)) :
  call_tool R "jira_transition_issue" arguments w =
    ([ {| type := "text";
          text := Plain ("❌ Error: '" ++ type_name token
                         ++ "' object has no attribute 'lower'") |} ],
     after_calls w1 [ {| request := GetTransitions issue_key; raised := None |} ]).
Proof.
  rewrite (call_tool_with_client _ _ _ _ _ _ Hclient).
  change (String.eqb "jira_transition_issue" "jira_search_issues") with false.
  change (String.eqb "jira_transition_issue" "jira_get_issue") with false.
  change (String.eqb "jira_transition_issue" "jira_create_issue") with false.
  change (String.eqb "jira_transition_issue" "jira_update_issue") with false.
  change (String.eqb "jira_transition_issue" "jira_add_comment") with false.
  change (String.eqb "jira_transition_issue" "jira_transition_issue") with true. cbv iota.
  unfold transition_tool, bind, subscript, call, lift. rewrite Hkey, Htoken. cbn [ret].
  rewrite Hts. cbn [find_transition].
  destruct token; try reflexivity. by destruct (Hnot s).
Qed.

Lemma transition_token_must_be_a_string_witness :
  call_tool (tracker workflow) "jira_transition_issue"
            (<["issue_key" := VStr "PROJ-1"]> (<["transition" := VInt 21]> ∅)) connected =
    ([ {| type := "text";
          text := Plain ("❌ Error: '" ++ type_name (VInt 21)
                         ++ "' object has no attribute 'lower'") |} ],
     after_calls connected
       [ {| request := GetTransitions (VStr "PROJ-1"); raised := None |} ]).
Proof.
  refine (transition_token_must_be_a_string (tracker workflow)
            (<["issue_key" := VStr "PROJ-1"]> (<["transition" := VInt 21]> ∅))
            connected the_client connected (VStr "PROJ-1") (VInt 21)
            {| t_id := "21"; t_name := "In Progress"; t_to_name := "In Progress" |}
            [ {| t_id := "31"; t_name := "Done"; t_to_name := "Done" |} ]
            eq_refl eq_refl eq_refl _ eq_refl).
  intros s. discriminate.
Defined.

(** ** The comment and update tools *)

(** X12.  A comment goes to the tracker as it was given, in one call, for
    the issue that was named; the confirmation is returned only when the
    tracker accepted it, otherwise the answer is the failure made from the
    exception of the tracker. *)
Theorem comment_is_added_verbatim {L : Lower} R arguments w jira w1 issue_key comment
    (Hclient : get_jira_client R w = (inr jira, w1))
    (Hkey : arguments !! "issue_key" = Some issue_key)
    (Hcomment : arguments !! "comment" = Some comment) :
  request <$> new_calls w1 (call_tool R "jira_add_comment" arguments w).2 =
    [ AddComment issue_key comment ] ∧
  (call_tool R "jira_add_comment" arguments w).1 =
    match add_comment R issue_key comment with
    | inr _ => [ {| type := "text";
                    text := Plain ("✅ Comment added to " ++ str issue_key) |} ]
    | inl e => handle e
    end.
Proof.
  rewrite (call_tool_with_client _ _ _ _ _ _ Hclient).
  change (String.eqb "jira_add_comment" "jira_search_issues") with false.
  change (String.eqb "jira_add_comment" "jira_get_issue") with false.
  change (String.eqb "jira_add_comment" "jira_create_issue") with false.
  change (String.eqb "jira_add_comment" "jira_update_issue") with false.
  change (String.eqb "jira_add_comment" "jira_add_comment") with true. cbv iota.
  unfold add_comment_tool, bind, subscript, call, new_calls. rewrite Hkey, Hcomment. cbn [ret].
  destruct (add_comment R issue_key comment); cbn [fst snd calls ret];
    rewrite drop_app_length; by split.
Qed.

Lemma comment_is_added_verbatim_witness :
  request <$> new_calls connected
                (call_tool (tracker workflow) "jira_add_comment"
                   (<["issue_key" := VStr "PROJ-1"]> (<["comment" := VStr "*done*"]> ∅))
                   connected).2 =
    [ AddComment (VStr "PROJ-1") (VStr "*done*") ].
Proof.
  exact (proj1 (comment_is_added_verbatim (tracker workflow)
                  (<["issue_key" := VStr "PROJ-1"]> (<["comment" := VStr "*done*"]> ∅))
                  connected the_client connected (VStr "PROJ-1") (VStr "*done*")
                  eq_refl eq_refl eq_refl)).
Defined.

(** X13.  An update first fetches the issue: when that fails, no update is
    sent, the fetch is the only call, and the answer is the failure made
    from the exception.  When the issue is there, the update is sent even
    if no field is given (with an empty field map), and the confirmation
    is returned only when the tracker accepted it. *)
Theorem update_needs_the_issue {L : Lower} R arguments w jira w1 issue_key
    (Hclient : get_jira_client R w = (inr jira, w1))
    (Hkey : arguments !! "issue_key" = Some issue_key) :
  match issue R issue_key None with
  | inl e =>
      call_tool R "jira_update_issue" arguments w =
        (handle e,
         after_calls w1 [ {| request := GetIssue issue_key None; raised := Some e |} ])
  | inr i =>
      request <$> new_calls w1 (call_tool R "jira_update_issue" arguments w).2 =
        [ GetIssue issue_key None; UpdateIssue i (update_fields arguments) ] ∧
      (call_tool R "jira_update_issue" arguments w).1 =
        match update R i (update_fields arguments) with
        | inr _ => [ {| type := "text";
                        text := Plain ("✅ Issue " ++ str issue_key
                                       ++ " updated successfully!") |} ]
        | inl e => handle e
        end ∧
      ((∀ k, k ∈ optional_update_keys → arguments !! k = None) →
       update_fields arguments = ∅)
  end.
Proof.
  rewrite (call_tool_with_client _ _ _ _ _ _ Hclient).
  change (String.eqb "jira_update_issue" "jira_search_issues") with false.
  change (String.eqb "jira_update_issue" "jira_get_issue") with false.
  change (String.eqb "jira_update_issue" "jira_create_issue") with false.
  change (String.eqb "jira_update_issue" "jira_update_issue") with true. cbv iota.
  unfold update_tool, bind, subscript, call, new_calls. rewrite Hkey. cbn [ret].
  destruct (issue R issue_key None) as [e|i]; [reflexivity|]. cbn [fst snd].
  split; [|split].
  - destruct (update R i (update_fields arguments)); cbn [fst snd calls ret];
      rewrite <- app_assoc, drop_app_length; reflexivity.
  - by destruct (update R i (update_fields arguments)).
  - intros Hnone. apply map_eq. intros k. rewrite lookup_update_fields, lookup_empty.
    unfold optional_update_keys in Hnone.
    repeat case_decide; subst; try reflexivity;
      rewrite Hnone; try reflexivity;
      repeat first [apply list_elem_of_here | apply list_elem_of_further].
Qed.

Lemma update_needs_the_issue_witness :
  call_tool (refusing (JIRAError (Some 404) (Some "Issue Does Not Exist")))
            "jira_update_issue" update_arguments_clear_labels connected =
    (handle (JIRAError (Some 404) (Some "Issue Does Not Exist")),
     after_calls connected
       [ {| request := GetIssue (VStr "X-1") None;
            raised := Some (JIRAError (Some 404) (Some "Issue Does Not Exist")) |} ]).
Proof.
  exact (update_needs_the_issue (refusing (JIRAError (Some 404) (Some "Issue Does Not Exist")))
           update_arguments_clear_labels connected the_client connected (VStr "X-1")
           eq_refl eq_refl).
Defined.

(** ** The field map of a create *)

(** X14.  The field map of a create always has the four keys project,
    summary, description and issuetype, and never a key other than these
    and priority, assignee, labels; the project goes in as a record with
    its key, and the issue type as a record with its name, "Task" when no
    type is given. *)
Theorem create_field_map_keys project summary arguments :
  let fields := issue_dict project summary arguments in
  (∀ k, k ∈ ["project"; "summary"; "description"; "issuetype"] → is_Some (fields !! k)) ∧
  (∀ k, is_Some (fields !! k) →
        k ∈ ["project"; "summary"; "description"; "issuetype";
             "priority"; "assignee"; "labels"]) ∧
  fields !! "project" = Some (VDict [("key", project)]) ∧
  fields !! "summary" = Some summary ∧
  fields !! "issuetype" =
    Some (VDict [("name", match arguments !! "issue_type" with
                          | Some t => t
                          | None => VStr "Task"
                          end)]).
Proof.
  intros fields. unfold fields. split; [|split; [|split; [|split]]].
  - intros k Hk. rewrite lookup_issue_dict.
    rewrite !elem_of_cons, elem_of_nil in Hk.
    destruct Hk as [->|[->|[->|[->|[]]]]]; simpl; eauto.
  - intros k. rewrite lookup_issue_dict. rewrite !elem_of_cons, elem_of_nil.
    repeat case_decide; subst; try tauto. by intros [? [=]].
  - by rewrite lookup_issue_dict.
  - by rewrite lookup_issue_dict.
  - rewrite lookup_issue_dict. simpl. by destruct (arguments !! "issue_type").
Qed.

(** ** The get tool: items of [expand] *)

Lemma join_items_not_string i (names : list string) v rest :
  (∀ s, v ≠ VStr s) →
  join_items i ((VStr <$> names) ++ v :: rest) =
    inl (Exception
           (TypeError ("sequence item " ++ pretty (i + length names)%nat
                       ++ ": expected str instance, " ++ type_name v ++ " found"))).
Proof.
  intros Hv. revert i. induction names as [|n names IH]; intros i.
  - simpl. rewrite Nat.add_0_r. destruct v; try reflexivity. by destruct (Hv s).
  - rewrite fmap_cons. cbn [app join_items]. rewrite IH. cbn [length].
    by rewrite Nat.add_succ_comm.
Qed.

(** X15.  The items of [expand] have to be strings: when the list has an
    item of another type, the call is answered with the catch-all failure
    that names the position and the type of the first such item, and
    nothing is asked of the tracker. *)
Theorem expand_items_must_be_strings {L : Lower} R arguments w jira w1 issue_key names v rest
    (Hclient : get_jira_client R w = (inr jira, w1))
    (Hkey : arguments !! "issue_key" = Some issue_key)
    (Hexpand : arguments !! "expand" = Some (VList ((VStr <$> names) ++ v :: rest)))
    (Hv : ∀ s, v ≠ VStr s) :
  call_tool R "jira_get_issue" arguments w =
    ([ {| type := "text";
          text := Plain ("❌ Error: sequence item " ++ pretty (length names)
                         ++ ": expected str instance, " ++ type_name v ++ " found") |} ],
     w1).
Proof.
  rewrite (call_tool_with_client _ _ _ _ _ _ Hclient).
  change (String.eqb "jira_get_issue" "jira_search_issues") with false.
  change (String.eqb "jira_get_issue" "jira_get_issue") with true. cbv iota.
  unfold get_tool, bind, subscript, get, lift. rewrite Hkey, Hexpand. cbn [ret default from_option id].
  assert (Htruthy : truthy (VList ((VStr <$> names) ++ v :: rest)) = true)
    by (by destruct names).
  rewrite Htruthy. unfold join. rewrite (join_items_not_string 0 names v rest Hv).
  reflexivity.
Qed.

Lemma expand_items_must_be_strings_witness :
  call_tool (tracker workflow) "jira_get_issue"
            (<["issue_key" := VStr "PROJ-1"]>
               (<["expand" := VList [VStr "changelog"; VInt 7]]> ∅)) connected =
    ([ {| type := "text";
          text := Plain ("❌ Error: sequence item " ++ pretty (length ["changelog"])
                         ++ ": expected str instance, " ++ type_name (VInt 7)
                         ++ " found") |} ],
     connected).
Proof.
  refine (expand_items_must_be_strings (tracker workflow)
            (<["issue_key" := VStr "PROJ-1"]>
               (<["expand" := VList [VStr "changelog"; VInt 7]]> ∅))
            connected the_client connected (VStr "PROJ-1") ["changelog"] (VInt 7) []
            eq_refl eq_refl eq_refl _).
  intros s. discriminate.
Defined.

(** ** The catalog and the dispatcher *)

Ltac known_step :=
  lazymatch goal with
  | |- logged (bind _ _) _ => eapply logged_bind; [|intros ? _]
  | |- logged (ret (text_content _)) _ =>
      apply logged_ret; unfold not_found_text, unknown_tool_text;
      let H := fresh in intros H; simpl in H; discriminate H
  | |- logged (ret _) _ => exact (logged_ret _ (fun _ => True) I)
  | |- logged (raise _) _ => apply logged_raise
  | |- logged (lift _) _ => apply logged_lift
  | |- logged (call _ _) _ => apply logged_call
  | |- logged (subscript _ _) _ => apply logged_subscript
  | |- logged (if ?b then _ else _) _ => destruct b
  | |- logged (match ?x with _ => _ end) _ => destruct x
  end.

Lemma registered_tool_body {L : Lower} R t arguments :
  t ∈ list_tools →
  logged (call_tool_body R (name t) arguments)
         (fun out => out ≠ text_content (Plain (unknown_tool_text (name t)))).
Proof.
  intros Htool. unfold call_tool_body.
  eapply logged_bind; [apply logged_get_jira_client|]. intros jira _.
  unfold list_tools in Htool.
  repeat (apply elem_of_cons in Htool as [->|Htool]);
    [ .. | by apply elem_of_nil in Htool ];
    cbn [name]; simpl (String.eqb _ _); cbv iota;
    unfold search_tool, get_tool, create_tool, update_tool, add_comment_tool,
      transition_tool, get_transitions_tool, list_projects_tool;
    repeat known_step.
Qed.

Lemma handle_not_unknown e tool :
  handle e ≠ text_content (Plain (unknown_tool_text tool)).
Proof.
  destruct e; unfold handle, jira_error_text, error_text, unknown_tool_text;
    intros H; simpl in H; discriminate H.
Qed.

(** X16.  Every tool of the catalog is implemented: a call under a name
    that [list_tools] reports is never answered with the unknown-tool
    failure, whatever the arguments, the process state and the client. *)
Theorem registered_tool_is_dispatched {L : Lower} R t arguments w
    (Htool : t ∈ list_tools) :
  (call_tool R (name t) arguments w).1 ≠
    [ {| type := "text"; text := Plain ("❌ Unknown tool: " ++ name t) |} ].
Proof.
  destruct (registered_tool_body R t arguments Htool w) as (new & _ & H).
  unfold call_tool.
  destruct (call_tool_body R (name t) arguments w) as [[e|out] w']; simpl in *.
  - apply handle_not_unknown.
  - apply H.
Qed.

Lemma registered_tool_is_dispatched_witness :
  (call_tool (tracker workflow) "jira_list_projects" ∅ connected).1 ≠
    [ {| type := "text"; text := Plain ("❌ Unknown tool: " ++ "jira_list_projects") |} ].
Proof.
  refine (registered_tool_is_dispatched (tracker workflow)
            {| name := "jira_list_projects";
               description := "List all accessible Jira projects";
               inputSchema := {|
                 schema_type := "object";
                 properties :=
                   [ ("include_archived",
                      param_default "boolean" "Include archived projects" (VBool false)) ];
                 required := None |} |}
            ∅ connected _).
  do 7 apply list_elem_of_further. apply list_elem_of_here.
Defined.

(** Use the agreement of two argument maps on the key [k]. *)
Ltac same_key Hsame k :=
  try rewrite (Hsame k)
    by (cbn; repeat first [apply list_elem_of_here | apply list_elem_of_further]).

(** X17.  A tool looks only at the parameters its schema declares: two
    argument maps that agree on the declared parameters of a tool get the
    same answer and cause the same calls, so undeclared keys are ignored. *)
Theorem undeclared_arguments_are_ignored {L : Lower} R t arguments arguments' w
    (Htool : t ∈ list_tools)
    (Hsame : ∀ k, k ∈ (properties (inputSchema t)).*1 →
                  arguments !! k = arguments' !! k) :
  call_tool R (name t) arguments w = call_tool R (name t) arguments' w.
Proof.
  unfold call_tool, call_tool_body, bind.
  destruct (get_jira_client R w) as [[e|jira] w1]; [reflexivity|].
  assert (Hh : ∀ w1, handler R jira (name t) arguments w1
                     = handler R jira (name t) arguments' w1);
    [|exact (f_equal (fun r => match r with
                               | (inr out, w') => (out, w')
                               | (inl e, w') => (handle e, w')
                               end) (Hh w1))].
  clear w w1. intros w1. unfold list_tools in Htool.
  repeat (apply elem_of_cons in Htool as [->|Htool]);
    [ .. | by apply elem_of_nil in Htool ];
    unfold handler; cbn [name]; simpl (String.eqb _ _); cbv iota;
    unfold search_tool, get_tool, create_tool, update_tool, add_comment_tool,
      transition_tool, get_transitions_tool, list_projects_tool,
      subscript, get, issue_dict, update_fields, present_field, get;
    same_key Hsame "jql"; same_key Hsame "max_results"; same_key Hsame "fields";
    same_key Hsame "issue_key"; same_key Hsame "expand";
    same_key Hsame "project"; same_key Hsame "summary"; same_key Hsame "description";
    same_key Hsame "issue_type"; same_key Hsame "priority"; same_key Hsame "assignee";
    same_key Hsame "labels"; same_key Hsame "comment"; same_key Hsame "transition";
    same_key Hsame "include_archived";
    reflexivity.
Qed.

Lemma undeclared_arguments_are_ignored_witness :
  call_tool (tracker workflow) "jira_get_transitions"
            (<["issue_key" := VStr "PROJ-1"]> (<["verbose" := VBool true]> ∅)) connected
  = call_tool (tracker workflow) "jira_get_transitions"
              (<["issue_key" := VStr "PROJ-1"]> ∅) connected.
Proof.
  refine (undeclared_arguments_are_ignored (tracker workflow)
            {| name := "jira_get_transitions";
               description := "Get available transitions (status changes) for a Jira issue";
               inputSchema := {|
                 schema_type := "object";
                 properties :=
                   [ ("issue_key", param "string" "Issue key (e.g., 'PROJ-123')") ];
                 required := Some ["issue_key"] |} |}
            (<["issue_key" := VStr "PROJ-1"]> (<["verbose" := VBool true]> ∅))
            (<["issue_key" := VStr "PROJ-1"]> ∅) connected _ _).
  - do 6 apply list_elem_of_further. apply list_elem_of_here.
  - intros k Hk. cbn in Hk. apply elem_of_cons in Hk as [->|Hk]; [reflexivity|].
    by apply elem_of_nil in Hk.
Defined.
